(** * server.js: registration, login, sessions and per-user chat history

    A shallow embedding of the Express application in [src/server.js].

    - The two Sequelize models ([User], [ChatHistory]) become records, the
      tables become lists in insertion order, and the declared column
      constraints ([allowNull], [unique], [validate.isEmail], the
      auto-increment primary keys and the [User.hasMany(ChatHistory)]
      foreign key) are checked by the [create] operations.
    - A route handler is a computation in a small state-and-exception monad:
      the state is the store together with [req.session.userId]; an
      exception is what the handler's [try { ... } catch] turns into a 500.
    - The e-mail syntax check and bcrypt are libraries the source only calls:
      they are parameters of the development.
    - The store itself is taken to work: a query fails only for the reasons
      the models declare, never because the connection does.
    - The directory [public] holds the pages the routes send
      ([index.html], [login.html], [signup.html]); the static middleware,
      mounted first, answers for the first of them. *)

From Stdlib Require Import ZArith List String Ascii Bool Lia Sorted Permutation.
Import ListNotations.
Local Open Scope string_scope.
Local Open Scope list_scope.
Local Open Scope Z_scope.

(** ** JSON values and replies *)

#[local] Set Warnings "-register-all".

Inductive json : Type :=
| JNull
| JBool (b : bool)
| JNum (n : Z)
| JStr (s : string)
| JArr (items : list json)
| JObj (fields : list (string * json)).

(** What a handler sends: [res.status(n).json(b)] ([res.json(b)] is status
    200), [res.redirect(l)] or [res.sendFile(f)]. *)
Inductive reply : Type :=
| Json (status : Z) (body : json)
| Redirect (location : string)
| SendFile (file : string).

Definition status_of (r : reply) : option Z :=
  match r with
  | Json s _ => Some s
  | _ => None
  end.

Definition error_body (msg : string) : json := JObj [("error", JStr msg)].

Definition success_redirect (loc : string) : json :=
  JObj [("success", JBool true); ("redirect", JStr loc)].

(** A body field as the handlers see it after destructuring [req.body]:
    [None] is JavaScript's [undefined] (the field is missing). *)
Definition value := option string.

(** [!v] is [negb (truthy v)]: [undefined] and the empty string are falsy. *)
Definition truthy (v : value) : bool :=
  match v with
  | Some s => negb (String.eqb s "")
  | None => false
  end.

(** [if (req.session.userId)]: [undefined] and [0] are falsy. *)
Definition truthy_id (i : option Z) : bool :=
  match i with
  | Some n => negb (n =? 0)
  | None => false
  end.

(** ** Models *)

Record User : Type := mkUser {
  u_id : Z;
  u_username : string;
  u_password : string;
  u_email : string
}.

(** The columns of [ChatHistories]: the declared ones, the [createdAt] and
    [updatedAt] every model gets, and the key of the association. Dates are
    milliseconds since the epoch. *)
Record ChatHistory : Type := mkChat {
  c_id : Z;
  c_message : string;
  c_response : string;
  c_timestamp : Z;
  c_createdAt : Z;
  c_updatedAt : Z;
  c_UserId : option Z
}.

(** The two tables and their id sequences (last value handed out). *)
Record Store : Type := mkStore {
  users : list User;
  chats : list ChatHistory;
  Users_id_seq : Z;
  ChatHistories_id_seq : Z
}.

Definition empty_store : Store := mkStore [] [] 0 0.

(** [cookie.maxAge] of the session configuration, in milliseconds. *)
Definition maxAge : Z := 86400000.

(** The row of a model instance, and [attributes: [...]] as a projection. *)
Definition User_row (u : User) : list (string * json) :=
  [("id", JNum (u_id u)); ("username", JStr (u_username u));
   ("password", JStr (u_password u)); ("email", JStr (u_email u))].

Definition select (attributes : list string) (row : list (string * json))
  : list (string * json) :=
  filter (fun kv => existsb (String.eqb (fst kv)) attributes) row.

(** [row.k]: a property that is not there reads as [undefined], which
    [res.json] leaves out; [None] here. *)
Fixpoint get (k : string) (row : list (string * json)) : option json :=
  match row with
  | [] => None
  | (k', v) :: rest => if String.eqb k k' then Some v else get k rest
  end.

(** An object literal whose [undefined] properties are dropped on
    serialisation. *)
Fixpoint defined_props (props : list (string * option json))
  : list (string * json) :=
  match props with
  | [] => []
  | (k, Some v) :: rest => (k, v) :: defined_props rest
  | (_, None) :: rest => defined_props rest
  end.

Definition object (props : list (string * option json)) : json :=
  JObj (defined_props props).

Definition option_json (o : option Z) : json :=
  match o with
  | Some n => JNum n
  | None => JNull
  end.

(** *** Dates in a reply: [Date.prototype.toISOString] *)

(** The [width] low decimal digits of [n], most significant first. *)
Fixpoint digits (width : nat) (n : Z) : string :=
  match width with
  | O => EmptyString
  | S w =>
      String.append (digits w (n / 10))
                    (String (ascii_of_nat (48 + Z.to_nat (n mod 10))) EmptyString)
  end.

(** Year, month and day of the day that comes [z0] days after 1970-01-01,
    in the proleptic Gregorian calendar. *)
Definition civil_from_days (z0 : Z) : Z * Z * Z :=
  let z := z0 + 719468 in
  let era := z / 146097 in
  let doe := z mod 146097 in
  let yoe := (doe - doe / 1460 + doe / 36524 - doe / 146096) / 365 in
  let doy := doe - (365 * yoe + yoe / 4 - yoe / 100) in
  let mp := (5 * doy + 2) / 153 in
  let d := doy - (153 * mp + 2) / 5 + 1 in
  let m := if mp <? 10 then mp + 3 else mp - 9 in
  let y := yoe + era * 400 + (if m <=? 2 then 1 else 0) in
  (y, m, d).

(** Four digits for the years 0 to 9999, a sign and six digits otherwise. *)
Definition year_string (y : Z) : string :=
  if (0 <=? y) && (y <=? 9999) then digits 4 y
  else if y <? 0 then String.append "-" (digits 6 (- y))
  else String.append "+" (digits 6 y).

(** [YYYY-MM-DDTHH:mm:ss.sssZ] for a time value in milliseconds. *)
Definition toISOString (ms : Z) : string :=
  let '(y, m, d) := civil_from_days (ms / 86400000) in
  let t := ms mod 86400000 in
  String.concat ""
    [year_string y; "-"; digits 2 m; "-"; digits 2 d; "T";
     digits 2 (t / 3600000); ":"; digits 2 (t / 60000 mod 60); ":";
     digits 2 (t / 1000 mod 60); "."; digits 3 (t mod 1000); "Z"].

Definition date_json (ms : Z) : json := JStr (toISOString ms).

(** A row that [findAll] read, as [res.json] sends it: the columns in the
    order of the model's attributes, dates as ISO strings. *)
Definition ChatHistory_toJSON (c : ChatHistory) : json :=
  JObj [("id", JNum (c_id c)); ("message", JStr (c_message c));
        ("response", JStr (c_response c));
        ("timestamp", date_json (c_timestamp c));
        ("createdAt", date_json (c_createdAt c));
        ("updatedAt", date_json (c_updatedAt c));
        ("UserId", option_json (c_UserId c))].

(** The instance [create] returns, as [res.json] sends it: the same
    properties, in the order the instance received them (the default of
    [timestamp] first, [updatedAt] and [createdAt] on saving). *)
Definition ChatHistory_created_toJSON (c : ChatHistory) : json :=
  JObj [("timestamp", date_json (c_timestamp c)); ("id", JNum (c_id c));
        ("message", JStr (c_message c)); ("response", JStr (c_response c));
        ("UserId", option_json (c_UserId c));
        ("updatedAt", date_json (c_updatedAt c));
        ("createdAt", date_json (c_createdAt c))].

(** *** Texts and strings as Postgres takes them *)

(** What is stored for a text that was submitted: a NUL character, which a
    text column cannot hold, is stored as a backslash and a 0. *)
Fixpoint pg_text (s : string) : string :=
  match s with
  | EmptyString => EmptyString
  | String c rest =>
      if Ascii.eqb c Ascii.zero
      then String (ascii_of_nat 92) (String (ascii_of_nat 48) (pg_text rest))
      else String c (pg_text rest)
  end.

(** The number of characters of a UTF-8 string: the bytes that do not
    continue a character. *)
Fixpoint char_length (s : string) : nat :=
  match s with
  | EmptyString => O
  | String c rest =>
      let b := nat_of_ascii c in
      if ((128 <=? b) && (b <? 192))%nat then char_length rest
      else S (char_length rest)
  end.

(** [DataTypes.STRING] is [VARCHAR(255)]. *)
Definition fits_STRING (s : string) : bool := (char_length s <=? 255)%nat.

(** ** Messages, as the literals of the source *)

Definition msg_register_missing : string := "அனைத்து தகவல்களையும் நிரப்பவும்".
Definition msg_register_duplicate : string :=
  "இந்த மின்னஞ்சல் ஏற்கனவே பயன்படுத்தப்பட்டுள்ளது".
Definition msg_register_failed : string := "பதிவுப் பிழை".
(* line 156: no user with that e-mail *)
Definition msg_login_no_user : string := "தவறான மின்னஞ்சல் அல்லது கடவுச்சொல்".
(* line 162: bcrypt.compare returned false *)
Definition msg_login_bad_password : string := "தவறான மின்னஞ்சல் அல்லது கடவுச்சொல்".
Definition msg_login_failed : string := "உள்நுழைவு பிழை".
Definition msg_logout_failed : string := "வெளியேறுவதில் பிழை".
Definition msg_me_not_found : string := "User not found".
Definition msg_me_failed : string := "பயனர் தகவலை பெற முடியவில்லை".
Definition msg_chat_missing : string := "செய்தி மற்றும் பதில் தேவை".
Definition msg_chat_failed : string := "செய்தியை சேமிக்க இயலவில்லை".
Definition msg_history_failed : string := "சரித்திரத்தைப் பெறுவதில் பிழை".

(** ** The handler monad

    [world] is what a handler can read and change: the store,
    [req.session.userId] and the cookies [res.clearCookie] was called on.
    A computation returns a value or throws, and leaves a world either way. *)

Inductive exn : Type :=
| SequelizeValidationError (column : string)
| SequelizeUniqueConstraintError (column : string)
| SequelizeForeignKeyConstraintError (column : string)
| SequelizeQueryError (what : string)
| SequelizeDatabaseError (what : string)
| BcryptError.

Record world : Type := mkWorld {
  db : Store;
  session_userId : option Z;
  cleared_cookies : list string
}.

Definition M (A : Type) : Type := world -> (exn + A) * world.

Definition ret {A} (a : A) : M A := fun w => (inr a, w).

Definition throw {A} (e : exn) : M A := fun w => (inl e, w).

Definition bind {A B} (c : M A) (k : A -> M B) : M B :=
  fun w =>
    match c w with
    | (inr a, w') => k a w'
    | (inl e, w') => (inl e, w')
    end.

Notation "x <- c ;; k" := (bind c (fun x => k))
  (at level 61, c at next level, right associativity).
Notation "c ;;; k" := (bind c (fun _ => k))
  (at level 61, right associativity).

Definition get_db : M Store := fun w => (inr (db w), w).

Definition put_db (d : Store) : M unit :=
  fun w => (inr tt, mkWorld d (session_userId w) (cleared_cookies w)).

(** [req.session.userId] *)
Definition get_session : M (option Z) := fun w => (inr (session_userId w), w).

(** [req.session.userId = id] *)
Definition set_session (id : Z) : M unit :=
  fun w => (inr tt, mkWorld (db w) (Some id) (cleared_cookies w)).

(** [req.session.destroy] when the store reports no error *)
Definition destroy_session : M unit :=
  fun w => (inr tt, mkWorld (db w) None (cleared_cookies w)).

(** [res.clearCookie(name)] *)
Definition clearCookie (name : string) : M unit :=
  fun w => (inr tt, mkWorld (db w) (session_userId w) (name :: cleared_cookies w)).

(** [try { body } catch (error) { res.status(500).json({error: msg}) }] *)
Definition try_catch (body : M reply) (msg : string) : world -> reply * world :=
  fun w =>
    match body w with
    | (inr r, w') => (r, w')
    | (inl _, w') => (Json 500 (error_body msg), w')
    end.

(** ** Requests *)

(** What a request brings besides its body: the clock read by
    [DataTypes.NOW] (milliseconds), the clock read again when a row is
    saved ([createdAt], [updatedAt]), the salt bcrypt draws, and whether
    the session store reports an error to the callback of [destroy]. *)
Record env : Type := mkEnv {
  now : Z;
  saved_at : Z;
  salt : string;
  destroy_error : bool
}.

Inductive request : Type :=
| GET_root
| GET_login
| GET_signup
| POST_api_register (username email password : value)
| POST_api_login (email password : value)
| GET_api_logout
| GET_api_me
| POST_api_chat_save (message response : value)
| GET_api_chat_history
| GET_index_html.

Record arrival : Type := mkArrival {
  a_env : env;
  a_session : option Z;
  a_request : request
}.

(** ** [order: [['timestamp', 'DESC']]]

    Rows with equal timestamps come out in insertion order here; SQL leaves
    their order open, and nothing below depends on it. *)

Fixpoint insert_desc (c : ChatHistory) (l : list ChatHistory) : list ChatHistory :=
  match l with
  | [] => [c]
  | x :: rest =>
      if c_timestamp x <=? c_timestamp c
      then c :: l
      else x :: insert_desc c rest
  end.

Fixpoint order_by_timestamp_desc (l : list ChatHistory) : list ChatHistory :=
  match l with
  | [] => []
  | c :: rest => insert_desc c (order_by_timestamp_desc rest)
  end.

(** The first row of [Users] with this e-mail, if any. *)
Definition user_with_email (d : Store) (e : string) : option User :=
  find (fun u => String.eqb (u_email u) e) (users d).

(** The first row of [Users] with this primary key, if any. *)
Definition user_with_id (d : Store) (i : Z) : option User :=
  find (fun u => u_id u =? i) (users d).

Definition owned_by (u : Z) (c : ChatHistory) : bool :=
  match c_UserId c with
  | Some v => v =? u
  | None => false
  end.

(** Stand-ins for the two libraries, used to run the handlers on concrete
    requests: an address is accepted when an [@] splits it into two
    non-empty parts; a hash is the salt followed by the password. *)
Definition sample_isEmail (s : string) : bool :=
  match String.index 0 "@" s with
  | Some n => (0 <? n)%nat && (n + 1 <? String.length s)%nat
  | None => false
  end.

Definition sample_hash (salt data : string) (rounds : Z) : string :=
  String.append salt data.

Definition sample_compare (data hash : string) : bool :=
  String.eqb (String.substring 4 (String.length hash - 4) hash) data.

Definition sample_env : env := mkEnv 1700000000000 1700000000001 "salt" false.

Definition alice : User := mkUser 1 "alice" "saltpw123" "alice@example.com".

(** A username of [n] characters. *)
Definition long_name (n : nat) : string := string_of_list_ascii (repeat "a"%char n).

Definition store_with_alice : Store := mkStore [alice] [] 1 0.

Definition bob : User := mkUser 2 "bob" "saltpw456" "bob@example.com".

(** alice has two rows, bob has the newest one. *)
Definition store_with_chats : Store :=
  mkStore [alice; bob]
          [mkChat 1 "hi" "hello" 10 10 10 (Some 1);
           mkChat 2 "hey" "hello bob" 30 30 30 (Some 2);
           mkChat 3 "again" "hello again" 20 20 20 (Some 1)]
          2 3.

(** A chat save that arrives without a session. *)
Definition anonymous_save (a : arrival) : bool :=
  match a_request a, a_session a with
  | POST_api_chat_save _ _, None => true
  | _, _ => false
  end.

(** ** The forms of the login and signup pages

    The submit listeners of the client script: both forms post their fields
    as JSON and treat the answer the same way. *)

Definition msg_unknown_error : string := "An unknown error occurred.".
Definition msg_network_error : string :=
  "A network error occurred. Please try again.".

(** Truthiness of a value [JSON.parse] returned. *)
Definition json_truthy (v : json) : bool :=
  match v with
  | JNull => false
  | JBool b => b
  | JNum n => negb (n =? 0)
  | JStr s => negb (String.eqb s "")
  | JArr _ => true
  | JObj _ => true
  end.

Definition js_truthy (v : option json) : bool :=
  match v with
  | Some x => json_truthy x
  | None => false
  end.

(** The binding [JSON.parse] keeps for a key: the last one. *)
Fixpoint get_last (k : string) (fields : list (string * json)) : option json :=
  match fields with
  | [] => None
  | (k', v) :: rest =>
      match get_last k rest with
      | Some v' => Some v'
      | None => if String.eqb k k' then Some v else None
      end
  end.

(** [result.success], [result.redirect], [result.error]: the property of
    an object; [undefined] on an array, a string, a number or a boolean,
    none of which has a property of these names. *)
Definition property (k : string) (result : json) : option json :=
  match result with
  | JObj fields => get_last k fields
  | _ => None
  end.

(** What the listener does to the page: [window.location.href = v] or
    [errorMessage.textContent = v]. *)
Inductive page_effect : Type :=
| SetLocation (href : option json)
| SetErrorText (text : json).

(** What [await response.json()] yields for a reply: the body of a JSON
    reply; a redirect or a file is not JSON and makes it throw ([None]). *)
Definition body_of (r : reply) : option json :=
  match r with
  | Json _ body => Some body
  | Redirect _ => None
  | SendFile _ => None
  end.

(** The body of the listeners' [try]: [response] is [None] when [fetch] or
    [response.json()] threw; reading a property of [null] throws too. *)
Definition on_submit (response : option json) : page_effect :=
  match response with
  | None => SetErrorText (JStr msg_network_error)
  | Some JNull => SetErrorText (JStr msg_network_error)
  | Some result =>
      if js_truthy (property "success" result)
      then SetLocation (property "redirect" result)
      else if js_truthy (property "error" result)
      then match property "error" result with
           | Some v => SetErrorText v
           | None => SetErrorText (JStr msg_unknown_error)
           end
      else SetErrorText (JStr msg_unknown_error)
  end.

Section Server.

(** [validate: { isEmail: true }] (validator.js) *)
Variable isEmail : string -> bool.
(** [bcrypt.hash(data, rounds)] with the salt it drew, and [bcrypt.compare] *)
Variable bcrypt_hash_salted : string -> string -> Z -> string.
Variable bcrypt_compare_hash : string -> string -> bool.

Definition bcrypt_hash (salt : string) (data : value) (rounds : Z) : M string :=
  match data with
  | Some s => ret (bcrypt_hash_salted salt s rounds)
  | None => throw BcryptError
  end.

Definition bcrypt_compare (data : value) (hash : string) : M bool :=
  match data with
  | Some s => ret (bcrypt_compare_hash s hash)
  | None => throw BcryptError
  end.

(** *** The store, as the handlers call it *)

(** [User.findOne({ where: { email } })]; an [undefined] in [where] is an
    error of the query builder. *)
Definition User_findOne_by_email (email : value) : M (option User) :=
  match email with
  | Some e =>
      d <- get_db ;;
      ret (user_with_email d e)
  | None => throw (SequelizeQueryError "WHERE parameter email is undefined")
  end.

(** [User.findByPk(id, { attributes })]: no key, no row. *)
Definition User_findByPk (id : option Z) (attributes : list string)
  : M (option (list (string * json))) :=
  match id with
  | Some i =>
      d <- get_db ;;
      ret (option_map (fun u => select attributes (User_row u))
             (user_with_id d i))
  | None => ret None
  end.

(** [User.create({ username, email, password })]: the model's validation
    runs first ([allowNull: false], [isEmail]); the insert then draws the
    next id, the unique indexes on [username] and [email] decide, and each
    of the three [STRING] columns takes at most 255 characters. (Postgres
    looks at the lengths before the indexes; a stored value is never too
    long, so the two orders can only differ in which of two errors a
    request that breaks both is refused with.) *)
Definition User_create (username email password : value) : M User :=
  match username, email, password with
  | Some un, Some em, Some pw =>
      if negb (isEmail em) then throw (SequelizeValidationError "email")
      else
        d <- get_db ;;
        let id := Users_id_seq d + 1 in
        put_db (mkStore (users d) (chats d) id (ChatHistories_id_seq d)) ;;;
        if existsb (fun u => String.eqb (u_username u) un) (users d)
        then throw (SequelizeUniqueConstraintError "username")
        else if existsb (fun u => String.eqb (u_email u) em) (users d)
        then throw (SequelizeUniqueConstraintError "email")
        else if negb (fits_STRING un && fits_STRING em && fits_STRING pw)
        then throw (SequelizeDatabaseError
                      "value too long for type character varying(255)")
        else
          let u := mkUser id un pw em in
          put_db (mkStore (users d ++ [u]) (chats d) id (ChatHistories_id_seq d)) ;;;
          ret u
  | None, _, _ => throw (SequelizeValidationError "username")
  | _, None, _ => throw (SequelizeValidationError "email")
  | _, _, None => throw (SequelizeValidationError "password")
  end.

(** [ChatHistory.create({ message, response, UserId })]: [timestamp] takes
    its default, [DataTypes.NOW], when the instance is built; [createdAt]
    and [updatedAt] take the clock when it is saved; the texts are stored
    as [pg_text] sends them; an [undefined] [UserId] is stored as NULL (the
    association leaves the key nullable); a key that is given must
    reference a row of [Users]. The instance returned holds the row as
    stored. *)
Definition ChatHistory_create (now saved_at : Z) (message response : value)
  (UserId : option Z) : M ChatHistory :=
  match message, response with
  | Some m, Some r =>
      d <- get_db ;;
      let id := ChatHistories_id_seq d + 1 in
      put_db (mkStore (users d) (chats d) (Users_id_seq d) id) ;;;
      match UserId with
      | Some u =>
          if existsb (fun x => u_id x =? u) (users d) then ret tt
          else throw (SequelizeForeignKeyConstraintError "UserId")
      | None => ret tt
      end ;;;
      let c := mkChat id (pg_text m) (pg_text r) now saved_at saved_at UserId in
      put_db (mkStore (users d) (chats d ++ [c]) (Users_id_seq d) id) ;;;
      ret c
  | None, _ => throw (SequelizeValidationError "message")
  | _, None => throw (SequelizeValidationError "response")
  end.

(** [ChatHistory.findAll({ where: { UserId }, order: [['timestamp','DESC']],
    limit })] *)
Definition ChatHistory_findAll (UserId : option Z) (limit : nat)
  : M (list ChatHistory) :=
  match UserId with
  | Some u =>
      d <- get_db ;;
      ret (firstn limit (order_by_timestamp_desc (filter (owned_by u) (chats d))))
  | None => throw (SequelizeQueryError "WHERE parameter UserId is undefined")
  end.

(** *** Middleware and routes *)

Definition handler : Type := world -> reply * world.

(** Authentication middleware (disabled for demo): [next()], whatever the
    session holds. *)
Definition requireAuth (next : handler) : handler := fun w => next w.

(** [app.get('/')] *)
Definition root : handler :=
  fun w =>
    if truthy_id (session_userId w) then (Redirect "/index.html", w)
    else (Redirect "/login", w).

(** [app.get('/login')] *)
Definition login_page : handler :=
  fun w =>
    if truthy_id (session_userId w) then (Redirect "/index.html", w)
    else (SendFile "public/login.html", w).

(** [app.get('/signup')] *)
Definition signup_page : handler :=
  fun w =>
    if truthy_id (session_userId w) then (Redirect "/index.html", w)
    else (SendFile "public/signup.html", w).

(** [app.post('/api/register')] *)
Definition register (e : env) (username email password : value) : handler :=
  try_catch
    (if negb (truthy username) || negb (truthy email) || negb (truthy password)
     then ret (Json 400 (error_body msg_register_missing))
     else
       existingUser <- User_findOne_by_email email ;;
       match existingUser with
       | Some _ => ret (Json 400 (error_body msg_register_duplicate))
       | None =>
           hashedPassword <- bcrypt_hash (salt e) password 10 ;;
           user <- User_create username email (Some hashedPassword) ;;
           set_session (u_id user) ;;;
           ret (Json 200 (success_redirect "/index.html"))
       end)
    msg_register_failed.

(** [app.post('/api/login')] *)
Definition login (email password : value) : handler :=
  try_catch
    (user <- User_findOne_by_email email ;;
     match user with
     | None => ret (Json 400 (error_body msg_login_no_user))
     | Some user =>
         validPassword <- bcrypt_compare password (u_password user) ;;
         if negb validPassword
         then ret (Json 400 (error_body msg_login_bad_password))
         else
           set_session (u_id user) ;;;
           ret (Json 200 (success_redirect "/index.html"))
     end)
    msg_login_failed.

(** [app.get('/api/logout')] *)
Definition logout (e : env) : handler :=
  fun w =>
    if destroy_error e then (Json 500 (error_body msg_logout_failed), w)
    else
      match (destroy_session ;;; clearCookie "connect.sid") w with
      | (_, w') => (Json 200 (success_redirect "/login"), w')
      end.

(** [app.get('/api/me', requireAuth, ...)] *)
Definition me : handler :=
  requireAuth
    (try_catch
       (id <- get_session ;;
        user <- User_findByPk id ["username"; "email"] ;;
        match user with
        | None => ret (Json 404 (error_body msg_me_not_found))
        | Some user =>
            ret (Json 200 (object [("username", get "username" user);
                                   ("email", get "email" user)]))
        end)
       msg_me_failed).

(** [app.post('/api/chat/save', requireAuth, ...)] *)
Definition chat_save (e : env) (message response : value) : handler :=
  requireAuth
    (try_catch
       (if negb (truthy message) || negb (truthy response)
        then ret (Json 400 (error_body msg_chat_missing))
        else
          id <- get_session ;;
          chat <- ChatHistory_create (now e) (saved_at e) message response id ;;
          ret (Json 200 (JObj [("success", JBool true);
                               ("chat", ChatHistory_created_toJSON chat)])))
       msg_chat_failed).

(** [app.get('/api/chat/history', requireAuth, ...)] *)
Definition chat_history : handler :=
  requireAuth
    (try_catch
       (id <- get_session ;;
        history <- ChatHistory_findAll id 50 ;;
        ret (Json 200 (JArr (map ChatHistory_toJSON history))))
       msg_history_failed).

(** [app.get('/index.html', requireAuth, ...)] *)
Definition index_html : handler :=
  requireAuth (fun w => (SendFile "public/index.html", w)).

(** [app.use(express.static('public'))], mounted before the session and
    before every route: a GET for [/] or for [/index.html] finds
    [public/index.html] (the page the route below would send) and is
    answered with it; the other requests are not files of [public] and go
    on to the routes. *)
Definition express_static (r : request) : option handler :=
  match r with
  | GET_root => Some (fun w => (SendFile "public/index.html", w))
  | GET_index_html => Some (fun w => (SendFile "public/index.html", w))
  | _ => None
  end.

(** The routes, for a request that the static middleware let through. *)
Definition routes (e : env) (r : request) : handler :=
  match r with
  | GET_root => root
  | GET_login => login_page
  | GET_signup => signup_page
  | POST_api_register username email password => register e username email password
  | POST_api_login email password => login email password
  | GET_api_logout => logout e
  | GET_api_me => me
  | POST_api_chat_save message response => chat_save e message response
  | GET_api_chat_history => chat_history
  | GET_index_html => index_html
  end.

Definition handle (e : env) (r : request) : handler :=
  match express_static r with
  | Some answer => answer
  | None => routes e r
  end.

(** A request arrives with the store as it is and the session its cookie
    resolves to; no cookie has been cleared yet. *)
Definition arrive (d : Store) (session : option Z) : world := mkWorld d session [].

(** Requests served one after the other, each with the session its cookie
    resolves to. *)
Fixpoint serve (d : Store) (l : list arrival) : Store :=
  match l with
  | [] => d
  | a :: rest =>
      serve (db (snd (handle (a_env a) (a_request a) (arrive d (a_session a)))))
            rest
  end.

(** *** State predicates *)

(** Every chat row has an owner, and the owner is a row of [Users]. *)
Definition has_owner (d : Store) (c : ChatHistory) : bool :=
  match c_UserId c with
  | Some u => existsb (fun x => u_id x =? u) (users d)
  | None => false
  end.

Definition all_owned (d : Store) : bool := forallb (has_owner d) (chats d).

(** The session names nobody, or a stored user. *)
Definition session_ok (d : Store) (session : option Z) : bool :=
  match session with
  | Some u => existsb (fun x => u_id x =? u) (users d)
  | None => true
  end.

(** The same store with every stored hash replaced. *)
Definition rehash (f : User -> string) (d : Store) : Store :=
  mkStore (map (fun u => mkUser (u_id u) (u_username u) (f u) (u_email u)) (users d))
          (chats d) (Users_id_seq d) (ChatHistories_id_seq d).

(** Newest first. *)
Definition newer_or_equal (a b : ChatHistory) : Prop :=
  c_timestamp b <= c_timestamp a.

(** The world a registration leaves when the insert was attempted and
    refused: only the id sequence has moved. *)
Definition after_refused_insert (w : world) : world :=
  mkWorld (mkStore (users (db w)) (chats (db w)) (Users_id_seq (db w) + 1)
                   (ChatHistories_id_seq (db w)))
          (session_userId w) (cleared_cookies w).

(** The row a registration inserts, and the world it leaves. *)
Definition registered_user (e : env) (w : world) (un em pw : string) : User :=
  mkUser (Users_id_seq (db w) + 1) un (bcrypt_hash_salted (salt e) pw 10) em.

Definition after_register (e : env) (w : world) (un em pw : string) : world :=
  mkWorld (mkStore (users (db w) ++ [registered_user e w un em pw]) (chats (db w))
                   (Users_id_seq (db w) + 1) (ChatHistories_id_seq (db w)))
          (Some (Users_id_seq (db w) + 1)) (cleared_cookies w).

(** The row a chat save inserts. *)
Definition saved_chat (e : env) (w : world) (m r : string) : ChatHistory :=
  mkChat (ChatHistories_id_seq (db w) + 1) (pg_text m) (pg_text r)
         (now e) (saved_at e) (saved_at e) (session_userId w).

Definition after_chat_save (e : env) (w : world) (m r : string) : world :=
  mkWorld (mkStore (users (db w)) (chats (db w) ++ [saved_chat e w m r])
                   (Users_id_seq (db w)) (ChatHistories_id_seq (db w) + 1))
          (session_userId w) (cleared_cookies w).

Definition after_refused_chat (w : world) : world :=
  mkWorld (mkStore (users (db w)) (chats (db w)) (Users_id_seq (db w))
                   (ChatHistories_id_seq (db w) + 1))
          (session_userId w) (cleared_cookies w).

(** The rows the history query returns for user [u]. *)
Definition recent (d : Store) (u : Z) : list ChatHistory :=
  firstn 50 (order_by_timestamp_desc (filter (owned_by u) (chats d))).

(** *** What a request can do to the store

    [store_step s d d']: served with session [s], a request may leave the
    store [d] as [d']. *)
Inductive store_step (s : option Z) (d : Store) : Store -> Prop :=
| step_none : store_step s d d
| step_user_refused :
    store_step s d (mkStore (users d) (chats d) (Users_id_seq d + 1)
                            (ChatHistories_id_seq d))
| step_user (un em pw : string) :
    un <> "" -> em <> "" -> isEmail em = true ->
    fits_STRING un && fits_STRING em && fits_STRING pw = true ->
    user_with_email d em = None ->
    existsb (fun u => String.eqb (u_username u) un) (users d) = false ->
    store_step s d (mkStore (users d ++ [mkUser (Users_id_seq d + 1) un pw em])
                            (chats d) (Users_id_seq d + 1)
                            (ChatHistories_id_seq d))
| step_chat_refused :
    store_step s d (mkStore (users d) (chats d) (Users_id_seq d)
                            (ChatHistories_id_seq d + 1))
| step_chat (m r : string) (now created updated : Z) :
    m <> "" -> r <> "" -> session_ok d s = true ->
    store_step s d (mkStore (users d)
                            (chats d ++ [mkChat (ChatHistories_id_seq d + 1) m r
                                                now created updated s])
                            (Users_id_seq d) (ChatHistories_id_seq d + 1)).

(** *** Well-formed stores *)

Definition user_ok (d : Store) (u : User) : Prop :=
  0 < u_id u <= Users_id_seq d
  /\ u_username u <> "" /\ u_email u <> "" /\ isEmail (u_email u) = true
  /\ fits_STRING (u_username u) && fits_STRING (u_email u)
     && fits_STRING (u_password u) = true.

(** No two users share an id, a username or an e-mail. *)
Definition users_wf (d : Store) : Prop :=
  0 <= Users_id_seq d
  /\ NoDup (map u_id (users d))
  /\ NoDup (map u_username (users d))
  /\ NoDup (map u_email (users d))
  /\ Forall (user_ok d) (users d).

Definition chat_ok (d : Store) (c : ChatHistory) : Prop :=
  0 < c_id c <= ChatHistories_id_seq d
  /\ c_message c <> "" /\ c_response c <> ""
  /\ session_ok d (c_UserId c) = true.

(** No two chat rows share an id; an owner, when there is one, is stored. *)
Definition chats_wf (d : Store) : Prop :=
  0 <= ChatHistories_id_seq d
  /\ NoDup (map c_id (chats d))
  /\ Forall (chat_ok d) (chats d).

(** * Properties *)

(** ** Ordering of the history query *)

Lemma insert_desc_perm (c : ChatHistory) (l : list ChatHistory) :
  Permutation (insert_desc c l) (c :: l).
Proof.
  induction l as [|x rest IH]; simpl.
  - apply Permutation_refl.
  - destruct (c_timestamp x <=? c_timestamp c).
    + apply Permutation_refl.
    + eapply perm_trans; [apply perm_skip, IH | apply perm_swap].
Qed.

Lemma order_by_timestamp_desc_perm (l : list ChatHistory) :
  Permutation (order_by_timestamp_desc l) l.
Proof.
  induction l as [|c rest IH]; simpl.
  - constructor.
  - eapply perm_trans; [apply insert_desc_perm | apply perm_skip, IH].
Qed.

Lemma insert_desc_sorted (c : ChatHistory) (l : list ChatHistory) :
  StronglySorted newer_or_equal l ->
  StronglySorted newer_or_equal (insert_desc c l).
Proof.
  induction 1 as [|x rest Hs IH Hall]; simpl.
  - repeat constructor.
  - destruct (c_timestamp x <=? c_timestamp c) eqn:E.
    + apply Z.leb_le in E.
      constructor; [constructor; assumption|].
      constructor; [exact E|].
      eapply Forall_impl; [|exact Hall].
      unfold newer_or_equal; intros; lia.
    + apply Z.leb_gt in E.
      constructor; [exact IH|].
      eapply Permutation_Forall; [symmetry; apply insert_desc_perm|].
      constructor; [unfold newer_or_equal; lia | exact Hall].
Qed.

Lemma order_by_timestamp_desc_sorted (l : list ChatHistory) :
  StronglySorted newer_or_equal (order_by_timestamp_desc l).
Proof.
  induction l as [|c rest IH]; simpl.
  - constructor.
  - apply insert_desc_sorted, IH.
Qed.

Lemma firstn_sorted (n : nat) (l : list ChatHistory) :
  StronglySorted newer_or_equal l ->
  StronglySorted newer_or_equal (firstn n l).
Proof.
  intros H; revert n.
  induction H as [|x rest Hs IH Hall]; intros [|n]; simpl; try constructor.
  - apply IH.
  - rewrite Forall_forall in *.
    intros y Hy; apply Hall.
    rewrite <- (firstn_skipn n rest); apply in_or_app; now left.
Qed.

Lemma sorted_prefix_dominates (n : nat) (l : list ChatHistory) :
  StronglySorted newer_or_equal l ->
  forall a b, In a (firstn n l) -> In b (skipn n l) -> newer_or_equal a b.
Proof.
  intros H; revert n.
  induction H as [|x rest Hs IH Hall]; intros [|n] a b; simpl; try tauto.
  intros [<-|Ha] Hb.
  - rewrite Forall_forall in Hall; apply Hall.
    rewrite <- (firstn_skipn n rest); apply in_or_app; now right.
  - eapply IH; eassumption.
Qed.

(** ** The handlers *)

Ltac run :=
  cbv [register login me chat_save chat_history index_html requireAuth
       try_catch bind ret throw get_db put_db get_session set_session
       User_findOne_by_email User_findByPk User_create ChatHistory_create
       ChatHistory_findAll bcrypt_hash bcrypt_compare arrive fst snd];
  cbn [db session_userId cleared_cookies users chats Users_id_seq
       ChatHistories_id_seq].

Ltac proj :=
  cbn [db session_userId cleared_cookies users chats Users_id_seq
       ChatHistories_id_seq].

Lemma truthy_Some (v : value) :
  truthy v = true -> exists s, v = Some s /\ s <> "".
Proof.
  destruct v as [s|]; simpl; [|discriminate].
  intros H; exists s; split; [reflexivity|].
  intros ->; discriminate.
Qed.

Lemma truthy_nonempty (s : string) : s <> "" -> truthy (Some s) = true.
Proof.
  intros H; simpl. destruct (String.eqb_spec s ""); [contradiction|reflexivity].
Qed.

Lemma pg_text_nonempty (s : string) : s <> "" -> pg_text s <> "".
Proof.
  destruct s as [|c rest]; [contradiction|]. intros _. cbn [pg_text].
  destruct (Ascii.eqb c Ascii.zero); discriminate.
Qed.

(** A text without NUL is stored as it is. *)
Lemma pg_text_plain (s : string) :
  (forall c, In c (list_ascii_of_string s) -> c <> Ascii.zero) -> pg_text s = s.
Proof.
  induction s as [|c rest IH]; intros H; [reflexivity|].
  cbn [pg_text]. destruct (Ascii.eqb_spec c Ascii.zero) as [->|Hc].
  - exfalso. apply (H Ascii.zero); [left|]; reflexivity.
  - rewrite IH; [reflexivity|]. intros x Hx. apply H. now right.
Qed.

Lemma find_none_existsb {A} (f : A -> bool) (l : list A) :
  find f l = None -> existsb f l = false.
Proof.
  induction l as [|x rest IH]; simpl; [reflexivity|].
  destruct (f x); [discriminate | exact IH].
Qed.

Lemma find_app_some {A} (f : A -> bool) (l l' : list A) (x : A) :
  find f l = Some x -> find f (l ++ l') = Some x.
Proof.
  induction l as [|y rest IH]; simpl; [discriminate|].
  destruct (f y); [trivial | exact IH].
Qed.

Lemma find_app_none {A} (f : A -> bool) (l l' : list A) :
  find f l = None -> find f (l ++ l') = find f l'.
Proof.
  induction l as [|y rest IH]; simpl; [reflexivity|].
  destruct (f y); [discriminate | exact IH].
Qed.

(** *** What each handler does, as equations *)

Lemma register_missing (e : env) (un em pw : value) (w : world) :
  truthy un = false \/ truthy em = false \/ truthy pw = false ->
  register e un em pw w = (Json 400 (error_body msg_register_missing), w).
Proof.
  intros H. unfold register.
  assert (E : negb (truthy un) || negb (truthy em) || negb (truthy pw) = true).
  { destruct H as [H|[H|H]]; rewrite H; simpl;
      rewrite ?orb_true_r; reflexivity. }
  rewrite E. reflexivity.
Qed.

Lemma register_complete (e : env) (un em pw : string) (w : world) :
  un <> "" -> em <> "" -> pw <> "" ->
  register e (Some un) (Some em) (Some pw) w =
  match user_with_email (db w) em with
  | Some _ => (Json 400 (error_body msg_register_duplicate), w)
  | None =>
      if negb (isEmail em) then (Json 500 (error_body msg_register_failed), w)
      else if existsb (fun u => String.eqb (u_username u) un) (users (db w))
      then (Json 500 (error_body msg_register_failed), after_refused_insert w)
      else if negb (fits_STRING un && fits_STRING em
                    && fits_STRING (bcrypt_hash_salted (salt e) pw 10))
      then (Json 500 (error_body msg_register_failed), after_refused_insert w)
      else (Json 200 (success_redirect "/index.html"), after_register e w un em pw)
  end.
Proof.
  intros Hu He Hp. unfold register.
  rewrite !truthy_nonempty by assumption. cbn [negb orb].
  run.
  destruct (user_with_email (db w) em) eqn:Efind;
    [destruct w; reflexivity|].
  destruct (isEmail em); cbn [negb]; [|destruct w; reflexivity].
  destruct (existsb (fun u => String.eqb (u_username u) un) (users (db w)));
    [reflexivity|].
  unfold user_with_email in Efind.
  rewrite (find_none_existsb _ _ Efind).
  destruct (fits_STRING un && fits_STRING em
            && fits_STRING (bcrypt_hash_salted (salt e) pw 10));
    reflexivity.
Qed.

Lemma chat_save_missing (e : env) (m r : value) (w : world) :
  truthy m = false \/ truthy r = false ->
  chat_save e m r w = (Json 400 (error_body msg_chat_missing), w).
Proof.
  intros H. unfold chat_save, requireAuth.
  assert (E : negb (truthy m) || negb (truthy r) = true).
  { destruct H as [H|H]; rewrite H; simpl; rewrite ?orb_true_r; reflexivity. }
  rewrite E. reflexivity.
Qed.

Lemma chat_save_complete (e : env) (m r : string) (w : world) :
  m <> "" -> r <> "" ->
  chat_save e (Some m) (Some r) w =
  if session_ok (db w) (session_userId w)
  then (Json 200 (JObj [("success", JBool true);
                        ("chat", ChatHistory_created_toJSON (saved_chat e w m r))]),
        after_chat_save e w m r)
  else (Json 500 (error_body msg_chat_failed), after_refused_chat w).
Proof.
  intros Hm Hr. unfold chat_save.
  rewrite !truthy_nonempty by assumption. cbn [negb orb].
  destruct w as [d s cl].
  unfold session_ok, after_chat_save, after_refused_chat, saved_chat. run.
  destruct s as [u|]; [|reflexivity].
  destruct (existsb (fun x => u_id x =? u) (users d)); reflexivity.
Qed.

Lemma me_eq (w : world) :
  me w =
  match session_userId w with
  | Some i =>
      match user_with_id (db w) i with
      | Some u => (Json 200 (JObj [("username", JStr (u_username u));
                                   ("email", JStr (u_email u))]), w)
      | None => (Json 404 (error_body msg_me_not_found), w)
      end
  | None => (Json 404 (error_body msg_me_not_found), w)
  end.
Proof.
  run. destruct (session_userId w) as [i|]; [|destruct w; reflexivity].
  destruct (user_with_id (db w) i) as [u|]; destruct w; reflexivity.
Qed.

Lemma chat_history_eq (w : world) :
  chat_history w =
  match session_userId w with
  | Some u => (Json 200 (JArr (map ChatHistory_toJSON (recent (db w) u))), w)
  | None => (Json 500 (error_body msg_history_failed), w)
  end.
Proof.
  run. destruct (session_userId w) as [i|]; destruct w; reflexivity.
Qed.

Lemma login_db (email password : value) (w : world) :
  db (snd (login email password w)) = db w.
Proof.
  destruct w as [d s cl]. run.
  destruct email as [e|]; proj; [|reflexivity].
  destruct (user_with_email d e) as [u|]; proj; [|reflexivity].
  destruct password as [p|]; proj; [|reflexivity].
  destruct (bcrypt_compare_hash p (u_password u)); reflexivity.
Qed.

(** *** Rows are only ever appended *)

Lemma register_users_grow (e : env) (un em pw : value) (w : world) :
  exists l, users (db (snd (register e un em pw w))) = users (db w) ++ l.
Proof.
  destruct (truthy un) eqn:Eu; [|rewrite register_missing by auto;
                                  exists []; symmetry; apply app_nil_r].
  destruct (truthy em) eqn:Ee; [|rewrite register_missing by auto;
                                  exists []; symmetry; apply app_nil_r].
  destruct (truthy pw) eqn:Ep; [|rewrite register_missing by auto;
                                  exists []; symmetry; apply app_nil_r].
  apply truthy_Some in Eu as (a & -> & Ha).
  apply truthy_Some in Ee as (b & -> & Hb).
  apply truthy_Some in Ep as (c & -> & Hc).
  rewrite register_complete by assumption.
  destruct (user_with_email (db w) b);
    [exists []; symmetry; apply app_nil_r|].
  destruct (negb (isEmail b));
    [exists []; symmetry; apply app_nil_r|].
  destruct (existsb _ _);
    [exists []; symmetry; apply app_nil_r|].
  destruct (negb (fits_STRING _ && fits_STRING _ && fits_STRING _));
    [exists []; symmetry; apply app_nil_r|].
  eexists; reflexivity.
Qed.

Lemma chat_save_users (e : env) (m r : value) (w : world) :
  users (db (snd (chat_save e m r w))) = users (db w).
Proof.
  destruct (truthy m) eqn:Em; [|rewrite chat_save_missing by auto; reflexivity].
  destruct (truthy r) eqn:Er; [|rewrite chat_save_missing by auto; reflexivity].
  apply truthy_Some in Em as (a & -> & Ha).
  apply truthy_Some in Er as (b & -> & Hb).
  rewrite chat_save_complete by assumption.
  destruct (session_ok _ _); reflexivity.
Qed.

Lemma handle_users_grow (e : env) (r : request) (w : world) :
  exists l, users (db (snd (handle e r w))) = users (db w) ++ l.
Proof.
  destruct r; cbn [handle express_static routes];
    try (exists []; rewrite app_nil_r;
         first [ rewrite login_db; reflexivity
               | rewrite chat_save_users; reflexivity
               | rewrite me_eq; destruct (session_userId w);
                 [destruct (user_with_id _ _)|]; reflexivity
               | rewrite chat_history_eq; destruct (session_userId w); reflexivity
               | unfold root, login_page, signup_page, index_html, requireAuth;
                 try destruct (truthy_id _); reflexivity
               | unfold logout; destruct (destroy_error e); reflexivity ]).
  apply register_users_grow.
Qed.

Lemma serve_users_grow (trace : list arrival) (d : Store) :
  exists l, users (serve d trace) = users d ++ l.
Proof.
  revert d; induction trace as [|a rest IH]; intros d; cbn [serve].
  - exists []; symmetry; apply app_nil_r.
  - destruct (IH (db (snd (handle (a_env a) (a_request a)
                                   (arrive d (a_session a)))))) as [l2 E2].
    destruct (handle_users_grow (a_env a) (a_request a) (arrive d (a_session a)))
      as [l1 E1].
    cbn [arrive db] in E1. rewrite E2, E1, <- app_assoc.
    eexists; reflexivity.
Qed.

(** *** Login *)

(** C2. A login whose e-mail matches no stored user and a login whose e-mail
    matches a user but whose password fails the hash comparison get the same
    reply, status 400 with the same error content, and neither changes the
    store or the session. *)
Theorem login_failures_indistinguishable :
  forall (w1 w2 : world) (e1 e2 p2 : string) (p1 : value) (u : User),
    user_with_email (db w1) e1 = None ->
    user_with_email (db w2) e2 = Some u ->
    bcrypt_compare_hash p2 (u_password u) = false ->
    fst (login (Some e1) p1 w1) = fst (login (Some e2) (Some p2) w2)
    /\ status_of (fst (login (Some e1) p1 w1)) = Some 400
    /\ snd (login (Some e1) p1 w1) = w1
    /\ snd (login (Some e2) (Some p2) w2) = w2.
Proof.
  intros w1 w2 e1 e2 p2 p1 u Hnone Hsome Hcmp.
  run. rewrite Hnone, Hsome. cbn. rewrite Hcmp. cbn.
  repeat split; reflexivity.
Qed.

(** *** Registration *)

Lemma find_none_forall {A} (f : A -> bool) (l : list A) :
  find f l = None <-> (forall x, In x l -> f x = false).
Proof.
  split.
  - intros H x Hx. destruct (f x) eqn:E; [|reflexivity].
    exfalso. eapply find_none in H; [|exact Hx]. congruence.
  - induction l as [|y rest IH]; intros H; simpl; [reflexivity|].
    rewrite (H y) by (now left). apply IH. intros x Hx. apply H. now right.
Qed.

Lemma user_with_email_none (d : Store) (e : string) :
  user_with_email d e = None <-> (forall x, In x (users d) -> u_email x <> e).
Proof.
  unfold user_with_email. rewrite find_none_forall. split; intros H x Hx.
  - intros E. specialize (H x Hx). rewrite E, String.eqb_refl in H. discriminate.
  - apply String.eqb_neq. now apply H.
Qed.

(** A registration that answers 200 had its three fields, a well-formed
    e-mail that was not stored and a free username, and appended one row. *)
Lemma register_success_inv (e : env) (un em pw : value) (w : world) :
  fst (register e un em pw w) = Json 200 (success_redirect "/index.html") ->
  exists a b c,
    un = Some a /\ em = Some b /\ pw = Some c /\
    a <> "" /\ b <> "" /\ c <> "" /\
    user_with_email (db w) b = None /\ isEmail b = true /\
    snd (register e un em pw w) = after_register e w a b c.
Proof.
  destruct (truthy un) eqn:Eu;
    [|rewrite register_missing by auto; discriminate].
  destruct (truthy em) eqn:Ee;
    [|rewrite register_missing by auto; discriminate].
  destruct (truthy pw) eqn:Ep;
    [|rewrite register_missing by auto; discriminate].
  apply truthy_Some in Eu as (a & -> & Ha).
  apply truthy_Some in Ee as (b & -> & Hb).
  apply truthy_Some in Ep as (c & -> & Hc).
  rewrite register_complete by assumption.
  destruct (user_with_email (db w) b) eqn:Ef; [discriminate|].
  destruct (isEmail b) eqn:Ev; cbn [negb]; [|discriminate].
  destruct (existsb _ _); [discriminate|].
  destruct (negb (fits_STRING _ && fits_STRING _ && fits_STRING _)); [discriminate|].
  intros _. exists a, b, c. repeat split; assumption || reflexivity.
Qed.

(** C3 (amended). After a registration with e-mail [em] has succeeded, and
    whatever requests were served in between, a second registration with the
    same e-mail is answered 400 and changes nothing: the user row the first
    one stored is still there, still the row found for that e-mail. The
    error is the duplicate-e-mail one when the second request carries a
    username and a password, and the missing-fields one otherwise. *)
Theorem register_same_email_twice :
  forall (e1 e2 : env) (d : Store) (s1 s2 : option Z)
         (un1 em pw1 un2 pw2 : value) (trace : list arrival),
    fst (register e1 un1 em pw1 (arrive d s1))
      = Json 200 (success_redirect "/index.html") ->
    let d1 := db (snd (register e1 un1 em pw1 (arrive d s1))) in
    let d2 := serve d1 trace in
    exists u : User,
      users d1 = users d ++ [u]
      /\ em = Some (u_email u)
      /\ snd (register e2 un2 em pw2 (arrive d2 s2)) = arrive d2 s2
      /\ fst (register e2 un2 em pw2 (arrive d2 s2))
           = Json 400 (error_body (if truthy un2 && truthy pw2
                                   then msg_register_duplicate
                                   else msg_register_missing))
      /\ In u (users d2)
      /\ user_with_email d2 (u_email u) = Some u.
Proof.
  intros e1 e2 d s1 s2 un1 em pw1 un2 pw2 trace Hok d1 d2.
  destruct (register_success_inv _ _ _ _ _ Hok)
    as (a & b & c & -> & -> & -> & Ha & Hb & Hc & Hnone & Hvalid & Hw1).
  set (u := registered_user e1 (arrive d s1) a b c).
  assert (Hd1 : users d1 = users d ++ [u]).
  { subst d1. rewrite Hw1. reflexivity. }
  assert (Hfind1 : user_with_email d1 b = Some u).
  { unfold user_with_email in *. rewrite Hd1.
    cbn [arrive db] in Hnone. rewrite (find_app_none _ _ _ Hnone).
    cbn [find u registered_user u_email]. rewrite String.eqb_refl. reflexivity. }
  destruct (serve_users_grow trace d1) as [l Hl]. fold d2 in Hl.
  assert (Hfind2 : user_with_email d2 b = Some u).
  { unfold user_with_email in *. rewrite Hl. now apply find_app_some. }
  exists u. split; [exact Hd1|]. split; [reflexivity|].
  assert (Hin : In u (users d2)).
  { rewrite Hl, Hd1. apply in_or_app; left. apply in_or_app; right. now left. }
  destruct (truthy un2) eqn:Eu; cbn [andb].
  - destruct (truthy pw2) eqn:Ep.
    + apply truthy_Some in Eu as (a2 & -> & Ha2).
      apply truthy_Some in Ep as (c2 & -> & Hc2).
      rewrite register_complete by assumption.
      cbn [arrive db]. rewrite Hfind2. repeat split; assumption.
    + rewrite register_missing by auto. repeat split; assumption.
  - rewrite register_missing by auto. repeat split; assumption.
Qed.

(** C10 (amended). A registration that carries its three fields, with an
    e-mail that is not stored and a username that is: the look-up by e-mail
    finds nothing, [User.create] throws (the unique index on [username]
    refuses the insert when the e-mail is well-formed, the model's
    validation refuses it before when it is not), and the client gets the
    generic 500; no user row is stored and the session is left alone. *)
Theorem register_taken_username :
  forall (e : env) (d : Store) (s : option Z) (un em pw : string),
    un <> "" -> em <> "" -> pw <> "" ->
    (forall x, In x (users d) -> u_email x <> em) ->
    (exists x, In x (users d) /\ u_username x = un) ->
    let w := arrive d s in
    let hashed := bcrypt_hash_salted (salt e) pw 10 in
    User_findOne_by_email (Some em) w = (inr None, w)
    /\ User_create (Some un) (Some em) (Some hashed) w
         = (if isEmail em
            then (inl (SequelizeUniqueConstraintError "username"),
                  after_refused_insert w)
            else (inl (SequelizeValidationError "email"), w))
    /\ fst (register e (Some un) (Some em) (Some pw) w)
         = Json 500 (error_body msg_register_failed)
    /\ users (db (snd (register e (Some un) (Some em) (Some pw) w))) = users d
    /\ session_userId (snd (register e (Some un) (Some em) (Some pw) w)) = s.
Proof.
  intros e d s un em pw Hu He Hp Hfree (x & Hx & Hname) w hashed.
  apply user_with_email_none in Hfree.
  assert (Htaken : existsb (fun u => String.eqb (u_username u) un) (users d) = true).
  { apply existsb_exists. exists x. split; [exact Hx|].
    rewrite Hname. apply String.eqb_refl. }
  split.
  { subst w. run. rewrite Hfree. reflexivity. }
  split.
  { subst w. unfold after_refused_insert. run.
    destruct (isEmail em); cbn [negb]; proj; [|reflexivity].
    rewrite Htaken. reflexivity. }
  rewrite register_complete by assumption.
  subst w. cbn [arrive db]. rewrite Hfree, Htaken.
  destruct (isEmail em); cbn [negb]; repeat split; reflexivity.
Qed.

(** C6 (amended). A registration with a missing or empty field is answered
    400 with the missing-fields error. One whose fields are all there but
    whose e-mail is malformed gets past the handler's checks and is refused
    by the model's validation inside [User.create], which the handler
    reports as the generic 500 (or, were that very string already stored as
    an e-mail, as the 400 duplicate error). In every such case no user is
    stored and the session is unchanged. *)
Theorem register_invalid_input :
  forall (e : env) (d : Store) (s : option Z) (un em pw : value),
    (truthy un = false \/ truthy em = false \/ truthy pw = false
     \/ exists b, em = Some b /\ isEmail b = false) ->
    let w := arrive d s in
    snd (register e un em pw w) = w
    /\ fst (register e un em pw w)
         = match em with
           | Some b =>
               if negb (truthy un && truthy em && truthy pw)
               then Json 400 (error_body msg_register_missing)
               else match user_with_email d b with
                    | Some _ => Json 400 (error_body msg_register_duplicate)
                    | None => Json 500 (error_body msg_register_failed)
                    end
           | None => Json 400 (error_body msg_register_missing)
           end.
Proof.
  intros e d s un em pw H w.
  destruct (truthy un) eqn:Eu;
    [|rewrite register_missing by auto; destruct em; split; reflexivity].
  destruct (truthy em) eqn:Ee;
    [|rewrite register_missing by auto; destruct em; split; reflexivity].
  destruct (truthy pw) eqn:Ep;
    [|rewrite register_missing by auto; destruct em; split; reflexivity].
  destruct H as [H|[H|[H|(b & -> & Hbad)]]]; try discriminate.
  apply truthy_Some in Eu as (a & -> & Ha).
  apply truthy_Some in Ep as (c & -> & Hc).
  assert (Hb : b <> "") by (intros ->; discriminate).
  rewrite register_complete by assumption.
  cbn [negb andb]. subst w. cbn [arrive db].
  destruct (user_with_email d b); [split; reflexivity|].
  rewrite Hbad. split; reflexivity.
Qed.

(** *** Chat records *)


Lemma has_owner_users (d d' : Store) (c : ChatHistory) (l : list User) :
  users d' = users d ++ l -> has_owner d c = true -> has_owner d' c = true.
Proof.
  unfold has_owner. intros ->. destruct (c_UserId c); [|trivial].
  rewrite existsb_app. intros ->. reflexivity.
Qed.

Lemma session_ok_users (d d' : Store) (s : option Z) (l : list User) :
  users d' = users d ++ l -> session_ok d s = true -> session_ok d' s = true.
Proof.
  unfold session_ok. intros ->. destruct s; [|trivial].
  rewrite existsb_app. intros ->. reflexivity.
Qed.

(** A session that names a stored user keeps doing so, whatever is served. *)
Lemma session_ok_handle (e : env) (r : request) (w : world) (s : option Z) :
  session_ok (db w) s = true -> session_ok (db (snd (handle e r w))) s = true.
Proof.
  destruct (handle_users_grow e r w) as [l Hl].
  now apply session_ok_users with (l := l).
Qed.

(** A saved row is owned by whoever the session names. *)
Lemma saved_chat_owner (e : env) (w : world) (m r : string) :
  c_UserId (saved_chat e w m r) = session_userId w.
Proof. reflexivity. Qed.

(** Served with a session that names a stored user, a chat save keeps
    every row owned. *)
Lemma chat_save_all_owned (e : env) (m r : value) (w : world) (u : Z) :
  session_userId w = Some u ->
  all_owned (db w) = true ->
  all_owned (db (snd (chat_save e m r w))) = true.
Proof.
  intros Hs Hall.
  destruct (truthy m) eqn:Em; [|rewrite chat_save_missing by auto; exact Hall].
  destruct (truthy r) eqn:Er; [|rewrite chat_save_missing by auto; exact Hall].
  apply truthy_Some in Em as (a & -> & Ha).
  apply truthy_Some in Er as (b & -> & Hb).
  rewrite chat_save_complete by assumption.
  destruct (session_ok (db w) (session_userId w)) eqn:Eok; [|exact Hall].
  unfold all_owned in *. cbn [snd after_chat_save db chats].
  rewrite forallb_app. apply andb_true_intro. split.
  - exact Hall.
  - cbn [forallb]. rewrite andb_true_r.
    unfold has_owner. cbn [saved_chat c_UserId users].
    rewrite Hs in *. exact Eok.
Qed.

(** *** The current user *)

Lemma user_with_id_rehash (f : User -> string) (d : Store) (i : Z) :
  user_with_id (rehash f d) i
  = option_map (fun u => mkUser (u_id u) (u_username u) (f u) (u_email u))
               (user_with_id d i).
Proof.
  unfold user_with_id, rehash. cbn [users].
  induction (users d) as [|x rest IH]; cbn [map find u_id]; [reflexivity|].
  destruct (u_id x =? i); [reflexivity | exact IH].
Qed.

(** C9. With a session that resolves to user id [u], [/api/me] leaves the
    world unchanged and answers: 200 with an object of exactly the two
    fields [username] and [email] of the stored user with that id, when
    there is one; 404 when no stored user has that id. The reply does not
    depend on the stored password hashes. *)
Theorem me_public_profile :
  forall (d : Store) (u : Z) (cl : list string),
    let w := mkWorld d (Some u) cl in
    snd (me w) = w
    /\ match user_with_id d u with
       | Some x =>
           In x (users d) /\ u_id x = u
           /\ fst (me w) = Json 200 (JObj [("username", JStr (u_username x));
                                          ("email", JStr (u_email x))])
       | None =>
           (forall x, In x (users d) -> u_id x <> u)
           /\ fst (me w) = Json 404 (error_body msg_me_not_found)
       end
    /\ forall f : User -> string,
         fst (me (mkWorld (rehash f d) (Some u) cl)) = fst (me w).
Proof.
  intros d u cl w. subst w. rewrite !me_eq. cbn [session_userId db].
  split; [destruct (user_with_id d u); reflexivity|]. split.
  - destruct (user_with_id d u) as [x|] eqn:E; unfold user_with_id in E.
    + apply find_some in E as [Hin Hid]. apply Z.eqb_eq in Hid.
      repeat split; assumption.
    + split; [|reflexivity]. intros x Hx Hid.
      rewrite find_none_forall in E. specialize (E x Hx).
      apply Z.eqb_neq in E. contradiction.
  - intros f. rewrite me_eq. cbn [session_userId db].
    rewrite user_with_id_rehash.
    destruct (user_with_id d u); reflexivity.
Qed.

(** *** History *)

Lemma owned_by_spec (u : Z) (c : ChatHistory) :
  owned_by u c = true <-> c_UserId c = Some u.
Proof.
  unfold owned_by. destruct (c_UserId c) as [v|]; split; try discriminate.
  - intros H. apply Z.eqb_eq in H. now subst.
  - intros [= ->]. apply Z.eqb_refl.
Qed.

Lemma recent_in (d : Store) (u : Z) (c : ChatHistory) :
  In c (recent d u) -> In c (chats d) /\ c_UserId c = Some u.
Proof.
  unfold recent. intros H.
  assert (Hs : In c (order_by_timestamp_desc (filter (owned_by u) (chats d)))).
  { rewrite <- (firstn_skipn 50 (order_by_timestamp_desc _)).
    apply in_or_app; now left. }
  eapply Permutation_in in Hs; [|apply order_by_timestamp_desc_perm].
  apply filter_In in Hs as [Hin Ho]. split; [exact Hin|].
  now apply owned_by_spec.
Qed.

(** C4. With a session that resolves to user id [u], the history request
    answers 200 with the rows [recent d u] and changes nothing. Every row
    returned is a stored row owned by [u]; the rows are in descending
    timestamp order; there are at most 50 of them; together with the rows
    left out they are exactly [u]'s stored rows, and no row left out is
    newer than a row returned. A row saved under any other session is never
    among them. *)
Theorem chat_history_own_records :
  forall (d : Store) (u : Z) (cl : list string),
    let w := mkWorld d (Some u) cl in
    chat_history w = (Json 200 (JArr (map ChatHistory_toJSON (recent d u))), w)
    /\ Forall (fun c => In c (chats d) /\ c_UserId c = Some u) (recent d u)
    /\ StronglySorted newer_or_equal (recent d u)
    /\ (List.length (recent d u) <= 50)%nat
    /\ (exists older,
          Permutation (recent d u ++ older) (filter (owned_by u) (chats d))
          /\ forall a b, In a (recent d u) -> In b older -> newer_or_equal a b)
    /\ (forall (e : env) (w0 : world) (m r : string),
          session_userId w0 <> Some u ->
          ~ In (saved_chat e w0 m r) (recent d u)).
Proof.
  intros d u cl w. subst w. rewrite chat_history_eq. cbn [session_userId db].
  split; [reflexivity|]. split.
  { apply Forall_forall. intros c. apply recent_in. }
  split.
  { apply firstn_sorted, order_by_timestamp_desc_sorted. }
  split.
  { unfold recent. apply firstn_le_length. }
  split.
  { exists (skipn 50 (order_by_timestamp_desc (filter (owned_by u) (chats d)))).
    split.
    - unfold recent. rewrite firstn_skipn. apply order_by_timestamp_desc_perm.
    - apply sorted_prefix_dominates, order_by_timestamp_desc_sorted. }
  intros e w0 m r Hs Hin.
  apply recent_in in Hin as [_ Ho].
  rewrite saved_chat_owner in Ho. contradiction.
Qed.

(** *** The authentication middleware *)

(** C1, on the code. [requireAuth] calls [next()] for every request, so
    the routes behind it are served without a session: [/index.html] sends
    the page, and a chat save stores a row. ([/api/me] finds no user for an
    absent id and answers 404.) *)
Theorem requireAuth_lets_everyone_through :
  (forall (next : handler) (w : world), requireAuth next w = next w)
  /\ (forall d : Store,
        index_html (arrive d None) = (SendFile "public/index.html", arrive d None))
  /\ (forall (e : env) (d : Store),
        status_of (fst (chat_save e (Some "hi") (Some "hello") (arrive d None)))
          = Some 200
        /\ List.length (chats (db (snd (chat_save e (Some "hi") (Some "hello")
                                                  (arrive d None)))))
           = S (List.length (chats d)))
  /\ (forall d : Store,
        fst (me (arrive d None)) = Json 404 (error_body msg_me_not_found)).
Proof.
  split; [reflexivity|]. split; [reflexivity|]. split.
  - intros e d. rewrite chat_save_complete by discriminate.
    cbn [arrive db session_userId session_ok fst snd status_of
         after_chat_save chats].
    split; [reflexivity|]. rewrite length_app. cbn [List.length]. lia.
  - intros d. rewrite me_eq. reflexivity.
Qed.

(** C7, on the code. A chat save that arrives without a session is
    answered 200 and stores a row whose [UserId] is NULL: afterwards not
    every chat row has an owner, whatever the store held before. *)
Theorem chat_save_without_session_is_ownerless :
  forall (e : env) (d : Store),
    let out := chat_save e (Some "hi") (Some "hello") (arrive d None) in
    status_of (fst out) = Some 200
    /\ chats (db (snd out))
         = chats d ++ [mkChat (ChatHistories_id_seq d + 1) "hi" "hello" (now e)
                              (saved_at e) (saved_at e) None]
    /\ all_owned (db (snd out)) = false.
Proof.
  intros e d out. subst out. rewrite chat_save_complete by discriminate.
  cbn [arrive db session_userId session_ok fst snd status_of
       after_chat_save chats].
  split; [reflexivity|]. split; [reflexivity|].
  unfold all_owned. cbn [db chats]. rewrite forallb_app.
  cbn [forallb has_owner saved_chat c_UserId session_userId andb].
  apply andb_false_r.
Qed.

Lemma register_chats (e : env) (un em pw : value) (w : world) :
  chats (db (snd (register e un em pw w))) = chats (db w).
Proof.
  destruct (truthy un) eqn:Eu; [|rewrite register_missing by auto; reflexivity].
  destruct (truthy em) eqn:Ee; [|rewrite register_missing by auto; reflexivity].
  destruct (truthy pw) eqn:Ep; [|rewrite register_missing by auto; reflexivity].
  apply truthy_Some in Eu as (a & -> & Ha).
  apply truthy_Some in Ee as (b & -> & Hb).
  apply truthy_Some in Ep as (c & -> & Hc).
  rewrite register_complete by assumption.
  destruct (user_with_email (db w) b); [reflexivity|].
  destruct (negb (isEmail b)); [reflexivity|].
  destruct (existsb _ _); [reflexivity|].
  destruct (negb (fits_STRING _ && fits_STRING _ && fits_STRING _)); reflexivity.
Qed.

Lemma all_owned_users (d d' : Store) (l : list User) :
  users d' = users d ++ l -> chats d' = chats d ->
  all_owned d = true -> all_owned d' = true.
Proof.
  unfold all_owned. intros Hu ->. rewrite !forallb_forall.
  intros H c Hc. eapply has_owner_users; [exact Hu | now apply H].
Qed.

(** Behind a session that names a user, every request keeps every chat row
    owned by a stored user: the rows without an owner come from requests
    that [requireAuth] should have turned away. *)
Lemma handle_all_owned (e : env) (r : request) (w : world) (u : Z) :
  session_userId w = Some u ->
  all_owned (db w) = true ->
  all_owned (db (snd (handle e r w))) = true.
Proof.
  intros Hs Hall.
  destruct r; cbn [handle express_static routes];
    try (first [ rewrite login_db; exact Hall
               | rewrite me_eq; rewrite Hs; destruct (user_with_id _ _); exact Hall
               | rewrite chat_history_eq; rewrite Hs; exact Hall
               | unfold logout; destruct (destroy_error e); exact Hall
               | unfold root, login_page, signup_page, index_html, requireAuth;
                 try destruct (truthy_id _); exact Hall ]).
  - destruct (register_users_grow e username email password w) as [l Hl].
    eapply all_owned_users; [exact Hl | apply register_chats | exact Hall].
  - eapply chat_save_all_owned; eassumption.
Qed.

(** The handlers only ever put the id of a stored user in the session. *)
Lemma handle_session_ok (e : env) (r : request) (w : world) :
  session_ok (db w) (session_userId w) = true ->
  session_ok (db (snd (handle e r w))) (session_userId (snd (handle e r w))) = true.
Proof.
  intros Hok.
  destruct r; cbn [handle express_static routes];
    try (first [ rewrite me_eq; destruct w as [d [i|] cl]; proj;
                 try destruct (user_with_id _ _); exact Hok
               | rewrite chat_history_eq; destruct w as [d [i|] cl]; exact Hok
               | unfold logout; destruct (destroy_error e);
                 [exact Hok | reflexivity]
               | unfold root, login_page, signup_page, index_html, requireAuth;
                 try destruct (truthy_id _); exact Hok ]).
  - (* register *)
    destruct (truthy username) eqn:Eu;
      [|rewrite register_missing by auto; exact Hok].
    destruct (truthy email) eqn:Ee;
      [|rewrite register_missing by auto; exact Hok].
    destruct (truthy password) eqn:Ep;
      [|rewrite register_missing by auto; exact Hok].
    apply truthy_Some in Eu as (a & -> & Ha).
    apply truthy_Some in Ee as (b & -> & Hb).
    apply truthy_Some in Ep as (c & -> & Hc).
    rewrite register_complete by assumption.
    destruct (user_with_email (db w) b); [exact Hok|].
    destruct (negb (isEmail b)); [exact Hok|].
    destruct (existsb _ _); [exact Hok|].
    destruct (negb (fits_STRING _ && fits_STRING _ && fits_STRING _)); [exact Hok|].
    cbn [snd after_register db session_userId session_ok users].
    rewrite existsb_app. cbn [existsb registered_user u_id].
    rewrite Z.eqb_refl, orb_true_r. reflexivity.
  - (* login *)
    destruct w as [d s cl]. cbn [db session_userId] in Hok. run.
    destruct email as [em|]; proj; [|exact Hok].
    destruct (user_with_email d em) as [u|] eqn:Ef; proj; [|exact Hok].
    destruct password as [p|]; proj; [|exact Hok].
    destruct (bcrypt_compare_hash p (u_password u)); cbn [negb]; proj;
      [|exact Hok].
    unfold session_ok. apply existsb_exists. exists u.
    apply find_some in Ef as [Hin _]. split; [exact Hin | apply Z.eqb_refl].
  - (* chat save *)
    destruct (truthy message) eqn:Em;
      [|rewrite chat_save_missing by auto; exact Hok].
    destruct (truthy response) eqn:Er;
      [|rewrite chat_save_missing by auto; exact Hok].
    apply truthy_Some in Em as (a & -> & Ha).
    apply truthy_Some in Er as (b & -> & Hb).
    rewrite chat_save_complete by assumption.
    rewrite Hok. exact Hok.
Qed.

(** One day, in milliseconds. *)
Lemma maxAge_one_day : maxAge = 24 * 60 * 60 * 1000.
Proof. reflexivity. Qed.

(** ** Further properties: what every request does to the store *)

Lemma register_store_step (e : env) (un em pw : value) (w : world) :
  store_step (session_userId w) (db w) (db (snd (register e un em pw w))).
Proof.
  destruct (truthy un) eqn:Eu;
    [|rewrite register_missing by auto; apply step_none].
  destruct (truthy em) eqn:Ee;
    [|rewrite register_missing by auto; apply step_none].
  destruct (truthy pw) eqn:Ep;
    [|rewrite register_missing by auto; apply step_none].
  apply truthy_Some in Eu as (a & -> & Ha).
  apply truthy_Some in Ee as (b & -> & Hb).
  apply truthy_Some in Ep as (c & -> & Hc).
  rewrite register_complete by assumption.
  destruct (user_with_email (db w) b) eqn:Ef; [apply step_none|].
  destruct (isEmail b) eqn:Ev; cbn [negb]; [|apply step_none].
  destruct (existsb _ _) eqn:Ex; [apply step_user_refused|].
  destruct (fits_STRING a && fits_STRING b
            && fits_STRING (bcrypt_hash_salted (salt e) c 10)) eqn:Ef';
    cbn [negb]; [|apply step_user_refused].
  apply step_user; assumption.
Qed.

Lemma chat_save_store_step (e : env) (m r : value) (w : world) :
  store_step (session_userId w) (db w) (db (snd (chat_save e m r w))).
Proof.
  destruct (truthy m) eqn:Em;
    [|rewrite chat_save_missing by auto; apply step_none].
  destruct (truthy r) eqn:Er;
    [|rewrite chat_save_missing by auto; apply step_none].
  apply truthy_Some in Em as (a & -> & Ha).
  apply truthy_Some in Er as (b & -> & Hb).
  rewrite chat_save_complete by assumption.
  destruct (session_ok _ _) eqn:Eok; [|apply step_chat_refused].
  apply step_chat; try assumption; now apply pg_text_nonempty.
Qed.

Lemma handle_store_step (e : env) (r : request) (w : world) :
  store_step (session_userId w) (db w) (db (snd (handle e r w))).
Proof.
  destruct r; cbn [handle express_static routes];
    try (first [ rewrite login_db; apply step_none
               | rewrite me_eq; destruct w as [d [i|] cl]; proj;
                 try destruct (user_with_id _ _); apply step_none
               | rewrite chat_history_eq; destruct w as [d [i|] cl];
                 apply step_none
               | unfold logout; destruct (destroy_error e); apply step_none
               | unfold root, login_page, signup_page, index_html, requireAuth;
                 try destruct (truthy_id _); apply step_none ]).
  - apply register_store_step.
  - apply chat_save_store_step.
Qed.

Lemma session_ok_step (s s0 : option Z) (d d' : Store) :
  store_step s d d' -> session_ok d s0 = true -> session_ok d' s0 = true.
Proof.
  intros H Hok. destruct H; try exact Hok.
  eapply session_ok_users; [|exact Hok]. reflexivity.
Qed.

Lemma user_ok_seq (d d' : Store) (u : User) :
  Users_id_seq d <= Users_id_seq d' -> user_ok d u -> user_ok d' u.
Proof. unfold user_ok. intros Hle (Hid & H). split; [lia | exact H]. Qed.

Lemma not_in_map_existsb {A} (f : A -> string) (l : list A) (x : string) :
  existsb (fun a => String.eqb (f a) x) l = false -> ~ In x (map f l).
Proof.
  intros H Hin. apply in_map_iff in Hin as (a & <- & Ha).
  assert (E : existsb (fun a0 => String.eqb (f a0) (f a)) l = true).
  { apply existsb_exists. exists a. split; [exact Ha | apply String.eqb_refl]. }
  congruence.
Qed.

Lemma users_wf_step (s : option Z) (d d' : Store) :
  store_step s d d' -> users_wf d -> users_wf d'.
Proof.
  intros H (Hseq & Hid & Hun & Hem & Hall).
  destruct H as [| |un em pw Hu He Hv Hfit Hfree Hname| |m r t t1 t2 Hm Hr Hs];
    unfold users_wf; cbn [users Users_id_seq].
  - repeat split; assumption.
  - repeat split; try assumption; try lia.
    eapply Forall_impl; [|exact Hall]. intros u. apply user_ok_seq.
    cbn [Users_id_seq]. lia.
  - split; [lia|]. rewrite !map_app. cbn [map u_id u_username u_email].
    assert (Hfresh : ~ In (Users_id_seq d + 1) (map u_id (users d))).
    { intros Hin. apply in_map_iff in Hin as (u & Hu1 & Hu2).
      rewrite Forall_forall in Hall. destruct (Hall u Hu2) as (Hb & _). lia. }
    split.
    { apply NoDup_app; [exact Hid | repeat constructor; intros [] |].
      intros x Hx [<-|[]]. contradiction. }
    split.
    { apply NoDup_app; [exact Hun | repeat constructor; intros [] |].
      intros x Hx [<-|[]]. revert Hx. now apply not_in_map_existsb. }
    split.
    { apply NoDup_app; [exact Hem | repeat constructor; intros [] |].
      intros x Hx [<-|[]]. revert Hx. apply not_in_map_existsb.
      apply find_none_existsb. exact Hfree. }
    apply Forall_app. split.
    + eapply Forall_impl; [|exact Hall]. intros u. apply user_ok_seq.
      cbn [Users_id_seq]. lia.
    + constructor; [|constructor].
      unfold user_ok. cbn [u_id u_username u_email Users_id_seq].
      repeat split; try assumption; lia.
  - repeat split; assumption.
  - repeat split; assumption.
Qed.

Lemma chat_ok_step (s : option Z) (d d' : Store) (c : ChatHistory) :
  store_step s d d' -> chat_ok d c -> chat_ok d' c.
Proof.
  intros H (Hid & Hm & Hr & Ho).
  assert (Ho' : session_ok d' (c_UserId c) = true)
    by (eapply session_ok_step; eassumption).
  unfold chat_ok. repeat split; try assumption; try lia;
    destruct H; cbn [ChatHistories_id_seq]; lia.
Qed.

Lemma chats_wf_step (s : option Z) (d d' : Store) :
  store_step s d d' -> chats_wf d -> chats_wf d'.
Proof.
  intros H (Hseq & Hid & Hall).
  assert (Hall' : Forall (chat_ok d') (chats d)).
  { eapply Forall_impl; [|exact Hall]. intros c. now apply chat_ok_step with s. }
  destruct H as [| |un em pw Hu He Hv Hfit Hfree Hname| |m r t t1 t2 Hm Hr Hs];
    unfold chats_wf; cbn [chats ChatHistories_id_seq] in *;
    try (repeat split; try assumption; lia).
  split; [lia|]. rewrite map_app. cbn [map c_id].
  split.
  - apply NoDup_app; [exact Hid | repeat constructor; intros [] |].
    intros x Hx [<-|[]].
    apply in_map_iff in Hx as (c & Hc1 & Hc2).
    rewrite Forall_forall in Hall. destruct (Hall c Hc2) as (Hb & _). lia.
  - apply Forall_app. split; [exact Hall'|].
    constructor; [|constructor].
    unfold chat_ok. cbn [c_id c_message c_response c_UserId ChatHistories_id_seq].
    repeat split; try assumption; try lia.
Qed.

Lemma empty_store_wf : users_wf empty_store /\ chats_wf empty_store.
Proof.
  unfold users_wf, chats_wf. cbn.
  repeat split; try constructor; lia.
Qed.

Lemma serve_wf (trace : list arrival) (d : Store) :
  users_wf d /\ chats_wf d ->
  users_wf (serve d trace) /\ chats_wf (serve d trace).
Proof.
  revert d; induction trace as [|a rest IH]; intros d [Hu Hc]; cbn [serve].
  - split; assumption.
  - apply IH.
    pose proof (handle_store_step (a_env a) (a_request a) (arrive d (a_session a)))
      as Hstep.
    cbn [arrive db session_userId] in Hstep.
    split; [eapply users_wf_step | eapply chats_wf_step]; eassumption.
Qed.

(** ** Further properties: login and registration *)

Lemma login_accepts_iff_aux (email password : value) (w : world) :
  fst (login email password w) = Json 200 (success_redirect "/index.html") ->
  exists em pw u,
    email = Some em /\ password = Some pw
    /\ user_with_email (db w) em = Some u
    /\ bcrypt_compare_hash pw (u_password u) = true
    /\ session_userId (snd (login email password w)) = Some (u_id u).
Proof.
  destruct w as [d s cl]. run.
  destruct email as [em|]; proj; [|discriminate].
  destruct (user_with_email d em) as [u|] eqn:Ef; proj; [|discriminate].
  destruct password as [pw|]; proj; [|discriminate].
  destruct (bcrypt_compare_hash pw (u_password u)) eqn:Ec; cbn [negb]; proj;
    [|discriminate].
  intros _. exists em, pw, u. repeat split; assumption || reflexivity.
Qed.

(** X1. A login is answered 200 exactly when the request carries an e-mail
    and a password, a stored user has that e-mail and [bcrypt.compare]
    accepts the password against that user's stored hash. It then puts
    that user's id in the session and changes nothing else. *)
Theorem login_accepts_iff :
  forall (email password : value) (w : world),
    (fst (login email password w) = Json 200 (success_redirect "/index.html")
     <-> exists em pw u,
           email = Some em /\ password = Some pw
           /\ user_with_email (db w) em = Some u
           /\ bcrypt_compare_hash pw (u_password u) = true)
    /\ (forall em pw u,
          email = Some em -> password = Some pw ->
          user_with_email (db w) em = Some u ->
          bcrypt_compare_hash pw (u_password u) = true ->
          snd (login email password w)
          = mkWorld (db w) (Some (u_id u)) (cleared_cookies w)).
Proof.
  intros email password w. destruct w as [d s cl]. run. split.
  - destruct email as [em|]; proj.
    2:{ split; [discriminate | intros (? & ? & ? & [=] & _)]. }
    destruct (user_with_email d em) as [u|] eqn:Ef; proj.
    2:{ split; [discriminate|].
        intros (em' & ? & ? & [= <-] & _ & Hf & _). congruence. }
    destruct password as [pw|]; proj.
    2:{ split; [discriminate | intros (? & ? & ? & _ & [=] & _)]. }
    destruct (bcrypt_compare_hash pw (u_password u)) eqn:Ec; cbn [negb]; proj.
    + split; [|reflexivity]. intros _. exists em, pw, u.
      repeat split; assumption || reflexivity.
    + split; [discriminate|].
      intros (em' & pw' & u' & [= <-] & [= <-] & Hf & Hc). congruence.
  - intros em pw u -> -> Hf Hc. proj. rewrite Hf. proj. rewrite Hc.
    reflexivity.
Qed.

(** X2. No login writes to the store or clears a cookie, and a login that
    is not answered 200 leaves the session as it was: a failed attempt
    neither logs anybody in nor logs the caller out. *)
Theorem login_never_writes :
  forall (email password : value) (w : world),
    db (snd (login email password w)) = db w
    /\ cleared_cookies (snd (login email password w)) = cleared_cookies w
    /\ (fst (login email password w) = Json 200 (success_redirect "/index.html")
        \/ snd (login email password w) = w).
Proof.
  intros email password w. destruct w as [d s cl]. run.
  destruct email as [em|]; proj; [|repeat split; right; reflexivity].
  destruct (user_with_email d em) as [u|]; proj;
    [|repeat split; right; reflexivity].
  destruct password as [pw|]; proj; [|repeat split; right; reflexivity].
  destruct (bcrypt_compare_hash pw (u_password u)); cbn [negb]; proj.
  - repeat split. left; reflexivity.
  - repeat split. right; reflexivity.
Qed.


(** X4. A registration that is not answered 200 stores no user, touches no
    chat row and leaves the session and the cookies alone. *)
Theorem register_failure_keeps_tables :
  forall (e : env) (un em pw : value) (w : world),
    fst (register e un em pw w) <> Json 200 (success_redirect "/index.html") ->
    users (db (snd (register e un em pw w))) = users (db w)
    /\ chats (db (snd (register e un em pw w))) = chats (db w)
    /\ session_userId (snd (register e un em pw w)) = session_userId w
    /\ cleared_cookies (snd (register e un em pw w)) = cleared_cookies w
    /\ (status_of (fst (register e un em pw w)) = Some 400
        \/ status_of (fst (register e un em pw w)) = Some 500).
Proof.
  intros e un em pw w.
  destruct (truthy un) eqn:Eu;
    [|rewrite register_missing by auto; intros _; repeat split; now left].
  destruct (truthy em) eqn:Ee;
    [|rewrite register_missing by auto; intros _; repeat split; now left].
  destruct (truthy pw) eqn:Ep;
    [|rewrite register_missing by auto; intros _; repeat split; now left].
  apply truthy_Some in Eu as (a & -> & Ha).
  apply truthy_Some in Ee as (b & -> & Hb).
  apply truthy_Some in Ep as (c & -> & Hc).
  rewrite register_complete by assumption.
  destruct (user_with_email (db w) b); [intros _; repeat split; now left|].
  destruct (isEmail b); cbn [negb]; [|intros _; repeat split; now right].
  destruct (existsb _ _); [intros _; repeat split; now right|].
  destruct (negb (fits_STRING _ && fits_STRING _ && fits_STRING _)); [intros _; repeat split; now right|].
  intros H. contradiction H. reflexivity.
Qed.

(** ** Further properties: stores that requests can produce *)

(** X5. Whatever requests are served, starting from the empty store, and
    whatever sessions they come with: no two stored users share an id, a
    username or an e-mail; every id is positive and at most the sequence;
    every stored username and e-mail is non-empty, every stored e-mail
    passed the [isEmail] validation, and every stored string fits the 255
    characters of its column. *)
Theorem reachable_users_unique :
  forall trace : list arrival, users_wf (serve empty_store trace).
Proof.
  intros trace. apply (serve_wf trace empty_store). apply empty_store_wf.
Qed.

(** X6. Whatever requests are served, starting from the empty store: no
    two chat rows share an id, every stored message and response is
    non-empty, and the owner of a row, when it has one, is a stored user. *)
Theorem reachable_chats_well_formed :
  forall trace : list arrival, chats_wf (serve empty_store trace).
Proof.
  intros trace. apply (serve_wf trace empty_store). apply empty_store_wf.
Qed.

Lemma reachable_users_wf_aux (trace : list arrival) :
  users_wf (serve empty_store trace).
Proof. apply (serve_wf trace empty_store). apply empty_store_wf. Qed.

Lemma find_by_key {A K} (key : A -> K) (eqb : K -> K -> bool) (l : list A) (x : A) :
  (forall a b, eqb a b = true <-> a = b) ->
  NoDup (map key l) -> In x l ->
  find (fun a => eqb (key a) (key x)) l = Some x.
Proof.
  intros Heq. induction l as [|y rest IH]; intros Hnd Hin; [destruct Hin|].
  cbn [map] in Hnd. apply NoDup_cons_iff in Hnd as [Hy Hnd].
  cbn [find]. destruct (eqb (key y) (key x)) eqn:E.
  - apply Heq in E. destruct Hin as [->|Hin]; [reflexivity|].
    exfalso. apply Hy. rewrite E. now apply in_map.
  - destruct Hin as [->|Hin]; [|now apply IH].
    assert (eqb (key x) (key x) = true) by now apply Heq. congruence.
Qed.

(** X7. In a store that requests produced, every stored user is the row
    found by its own e-mail and the row found by its own id: the look-ups
    of login and of [/api/me] cannot land on somebody else's row. *)
Theorem stored_user_is_found :
  forall (trace : list arrival) (u : User),
    let d := serve empty_store trace in
    In u (users d) ->
    user_with_email d (u_email u) = Some u
    /\ user_with_id d (u_id u) = Some u.
Proof.
  intros trace u d Hin.
  destruct (reachable_users_wf_aux trace) as (_ & Hid & _ & Hem & _).
  split.
  - unfold user_with_email. apply (find_by_key u_email String.eqb); trivial.
    intros a b. apply String.eqb_eq.
  - unfold user_with_id. apply (find_by_key u_id Z.eqb); trivial.
    intros a b. apply Z.eqb_eq.
Qed.

Lemma handle_all_owned_but_anonymous_save (a : arrival) (d : Store) :
  anonymous_save a = false ->
  all_owned d = true ->
  all_owned (db (snd (handle (a_env a) (a_request a) (arrive d (a_session a)))))
  = true.
Proof.
  intros Ha Hall. destruct a as [e s r]. cbn [a_env a_session a_request] in *.
  destruct s as [u|].
  { now apply (handle_all_owned e r (arrive d (Some u)) u). }
  destruct (handle_users_grow e r (arrive d None)) as [l Hl].
  eapply all_owned_users; [exact Hl | | exact Hall].
  destruct r; try discriminate Ha; cbn [handle express_static routes];
    first [ apply register_chats
          | rewrite login_db; reflexivity
          | rewrite me_eq; reflexivity
          | rewrite chat_history_eq; reflexivity
          | unfold logout; destruct (destroy_error e); reflexivity
          | unfold root, login_page, signup_page, index_html, requireAuth;
            try destruct (truthy_id _); reflexivity ].
Qed.

Lemma serve_all_owned_from (trace : list arrival) (d : Store) :
  existsb anonymous_save trace = false ->
  all_owned d = true -> all_owned (serve d trace) = true.
Proof.
  revert d. induction trace as [|a rest IH]; intros d Hs Hall; cbn [serve].
  - exact Hall.
  - cbn [existsb] in Hs. apply orb_false_iff in Hs as [Ha Hrest].
    apply IH; [exact Hrest|].
    now apply handle_all_owned_but_anonymous_save.
Qed.

(** X8. If no chat save arrives without a session, then whatever else is
    served, every chat row has an owner and the owner is a stored user:
    rows without an owner can only come from chat saves that carry no
    session. *)
Theorem sessions_keep_rows_owned :
  forall trace : list arrival,
    existsb anonymous_save trace = false ->
    all_owned (serve empty_store trace) = true.
Proof.
  intros trace Hs. now apply serve_all_owned_from.
Qed.

(** ** Further properties: how requests compose *)

(** X9. A logout whose [destroy] reports no error is answered 200 with a
    redirect to the login page, clears the cookie [connect.sid], empties
    the session and leaves the store alone, whether or not there was a
    session; the requests that follow are treated as anonymous: [/login]
    and [/signup] show their form and [/api/me] answers 404. When
    [destroy] reports an error the answer is 500 and nothing changes. *)
Theorem logout_ends_session :
  forall (e e' : env) (w : world),
    let w' := snd (handle e GET_api_logout w) in
    if destroy_error e
    then handle e GET_api_logout w = (Json 500 (error_body msg_logout_failed), w)
    else fst (handle e GET_api_logout w) = Json 200 (success_redirect "/login")
         /\ w' = mkWorld (db w) None ("connect.sid" :: cleared_cookies w)
         /\ handle e' GET_login w' = (SendFile "public/login.html", w')
         /\ handle e' GET_signup w' = (SendFile "public/signup.html", w')
         /\ handle e' GET_api_me w' = (Json 404 (error_body msg_me_not_found), w').
Proof.
  intros e e' w w'. subst w'. cbn [handle express_static routes]. unfold logout.
  destruct (destroy_error e); [reflexivity|].
  cbn [fst snd]. repeat split.
Qed.

Lemma accepted_session_positive (e : env) (r : request) (d : Store) (s : option Z) :
  users_wf d ->
  fst (handle e r (arrive d s)) = Json 200 (success_redirect "/index.html") ->
  exists i, session_userId (snd (handle e r (arrive d s))) = Some i /\ 0 < i.
Proof.
  intros (Hseq & _ & _ & _ & Hall) Hok.
  destruct r; cbn [handle express_static routes] in *;
    try (unfold root, login_page, signup_page, index_html, requireAuth in Hok;
         try destruct (truthy_id _); discriminate).
  - apply register_success_inv in Hok
      as (a & b & c & _ & _ & _ & _ & _ & _ & _ & _ & Hw).
    rewrite Hw. eexists; split; [reflexivity|]. cbn [arrive db]. lia.
  - apply login_accepts_iff_aux in Hok as (em & pw & u & _ & _ & Hf & _ & Hs).
    rewrite Hs. eexists; split; [reflexivity|].
    apply find_some in Hf as [Hin _]. cbn [arrive db] in Hin.
    rewrite Forall_forall in Hall. destruct (Hall u Hin) as (Hb & _). lia.
  - unfold logout in Hok. destruct (destroy_error e); discriminate.
  - rewrite me_eq in Hok. cbn [arrive session_userId db] in Hok.
    destruct s; [destruct (user_with_id _ _)|]; discriminate.
  - destruct (truthy message) eqn:Em;
      [|rewrite chat_save_missing in Hok by auto; discriminate].
    destruct (truthy response) eqn:Er;
      [|rewrite chat_save_missing in Hok by auto; discriminate].
    apply truthy_Some in Em as (a & -> & Ha).
    apply truthy_Some in Er as (b & -> & Hb).
    rewrite chat_save_complete in Hok by assumption.
    destruct (session_ok _ _); discriminate.
  - rewrite chat_history_eq in Hok. cbn [arrive session_userId] in Hok.
    destruct s; discriminate.
Qed.

(** X10. In a store that requests produced, a request that is answered
    with the success object redirecting to [/index.html] (a login or a
    registration that went through) leaves a session the page routes
    recognise, its user id never being 0: from then on [/login] and
    [/signup] redirect to [/index.html] instead of showing their form. *)
Theorem pages_after_sign_in :
  forall (trace : list arrival) (e e' : env) (r : request) (s : option Z),
    let out := handle e r (arrive (serve empty_store trace) s) in
    fst out = Json 200 (success_redirect "/index.html") ->
    handle e' GET_login (snd out) = (Redirect "/index.html", snd out)
    /\ handle e' GET_signup (snd out) = (Redirect "/index.html", snd out).
Proof.
  intros trace e e' r s out Hok. subst out.
  destruct (accepted_session_positive e r _ s (reachable_users_wf_aux trace) Hok)
    as (i & Hs & Hpos).
  assert (Ht : truthy_id (session_userId
                 (snd (handle e r (arrive (serve empty_store trace) s)))) = true).
  { rewrite Hs. cbn [truthy_id]. destruct (Z.eqb_spec i 0); [lia|reflexivity]. }
  cbn [handle express_static routes] in Ht |- *.
  unfold login_page, signup_page.
  split.
  - destruct (express_static r) eqn:Er; rewrite Ht; reflexivity.
  - destruct (express_static r) eqn:Er; rewrite Ht; reflexivity.
Qed.


Lemma registered_user_stays_found (e : env) (d : Store) (s : option Z)
      (un em pw : string) (trace : list arrival) :
  fst (register e (Some un) (Some em) (Some pw) (arrive d s))
    = Json 200 (success_redirect "/index.html") ->
  user_with_email
    (serve (db (snd (register e (Some un) (Some em) (Some pw) (arrive d s)))) trace)
    em
  = Some (mkUser (Users_id_seq d + 1) un (bcrypt_hash_salted (salt e) pw 10) em).
Proof.
  intros Hok.
  apply register_success_inv in Hok
    as (a & b & c & [= <-] & [= <-] & [= <-] & _ & _ & _ & Hf & _ & Hw).
  cbn [arrive db] in Hf.
  destruct (serve_users_grow trace
              (db (snd (register e (Some un) (Some em) (Some pw) (arrive d s)))))
    as [l Hl].
  unfold user_with_email in *. rewrite Hl, Hw.
  cbn [after_register db users registered_user arrive].
  apply find_app_some. rewrite (find_app_none _ _ _ Hf).
  cbn [find u_email]. rewrite String.eqb_refl. reflexivity.
Qed.

(** X12. After a registration that went through, and whatever requests
    were served since, a login with the registered e-mail is decided by
    [bcrypt.compare] of the submitted password against the hash stored at
    registration: accepted, with the registered user's id in the session,
    when it holds, and answered 400 otherwise. *)
Theorem login_after_register :
  forall (e : env) (d : Store) (s1 s2 : option Z) (un em pw pw' : string)
         (trace : list arrival),
    let registered := register e (Some un) (Some em) (Some pw) (arrive d s1) in
    let d2 := serve (db (snd registered)) trace in
    fst registered = Json 200 (success_redirect "/index.html") ->
    login (Some em) (Some pw') (arrive d2 s2)
    = if bcrypt_compare_hash pw' (bcrypt_hash_salted (salt e) pw 10)
      then (Json 200 (success_redirect "/index.html"),
            mkWorld d2 (session_userId (snd registered)) [])
      else (Json 400 (error_body msg_login_bad_password), arrive d2 s2).
Proof.
  intros e d s1 s2 un em pw pw' trace registered d2 Hok.
  pose proof (registered_user_stays_found e d s1 un em pw trace Hok) as Hf.
  fold registered in Hf. fold d2 in Hf.
  assert (Hs : session_userId (snd registered) = Some (Users_id_seq d + 1)).
  { subst registered. apply register_success_inv in Hok
      as (? & ? & ? & [= <-] & [= <-] & [= <-] & _ & _ & _ & _ & _ & Hw).
    rewrite Hw. reflexivity. }
  rewrite Hs. run. rewrite Hf. proj. cbn [u_password u_id].
  destruct (bcrypt_compare_hash pw' (bcrypt_hash_salted (salt e) pw 10));
    reflexivity.
Qed.

(** ** Further properties: saving and reading back *)

Lemma order_newest_last (l : list ChatHistory) (c : ChatHistory) :
  (forall x, In x l -> c_timestamp x < c_timestamp c) ->
  order_by_timestamp_desc (l ++ [c]) = c :: order_by_timestamp_desc l.
Proof.
  induction l as [|x rest IH]; intros H; [reflexivity|].
  cbn [app order_by_timestamp_desc].
  rewrite IH by (intros y Hy; apply H; now right).
  cbn [insert_desc].
  assert (Hx : c_timestamp x < c_timestamp c) by (apply H; now left).
  destruct (Z.leb_spec (c_timestamp c) (c_timestamp x)); [lia|reflexivity].
Qed.

(** X13. A chat save under a session that names a stored user, at a clock
    reading later than the timestamps of that user's rows, is read back
    first: the history of that user afterwards is the saved row (the texts
    as stored, a NUL as a backslash and a 0) followed by the 49 newest of
    the rows returned before. *)
Theorem chat_save_then_history :
  forall (e : env) (d : Store) (u : Z) (m r : string) (cl : list string),
    m <> "" -> r <> "" ->
    session_ok d (Some u) = true ->
    (forall c, In c (chats d) -> c_UserId c = Some u -> c_timestamp c < now e) ->
    let out := chat_save e (Some m) (Some r) (mkWorld d (Some u) cl) in
    let c := mkChat (ChatHistories_id_seq d + 1) (pg_text m) (pg_text r)
                    (now e) (saved_at e) (saved_at e) (Some u) in
    recent (db (snd out)) u = c :: firstn 49 (recent d u)
    /\ fst (chat_history (snd out))
       = Json 200 (JArr (ChatHistory_toJSON c
                         :: map ChatHistory_toJSON (firstn 49 (recent d u)))).
Proof.
  intros e d u m r cl Hm Hr Hok Hclock out c. subst out.
  rewrite chat_save_complete by assumption.
  cbn [db session_userId]. rewrite Hok. cbn [snd].
  assert (Hrecent : recent (db (after_chat_save e (mkWorld d (Some u) cl) m r)) u
                    = c :: firstn 49 (recent d u)).
  { unfold recent. cbn [after_chat_save db chats].
    change (saved_chat e (mkWorld d (Some u) cl) m r) with c.
    rewrite filter_app. cbn [filter].
    assert (Ho : owned_by u c = true) by (apply owned_by_spec; reflexivity).
    rewrite Ho. rewrite order_newest_last.
    - rewrite firstn_firstn. reflexivity.
    - intros x Hx. apply filter_In in Hx as [Hin Hox].
      apply Hclock; [exact Hin | now apply owned_by_spec]. }
  split; [exact Hrecent|].
  rewrite chat_history_eq.
  cbn [after_chat_save session_userId fst]. cbn [after_chat_save] in Hrecent.
  rewrite Hrecent. reflexivity.
Qed.

(** X14. A request served under a session that is not [u]'s, or under no
    session, does not change what the history of [u] returns, whatever the
    request is. *)
Theorem history_isolated :
  forall (e : env) (r : request) (w : world) (u : Z),
    session_userId w <> Some u ->
    recent (db (snd (handle e r w))) u = recent (db w) u.
Proof.
  intros e r w u Hs.
  pose proof (handle_store_step e r w) as Hstep.
  destruct Hstep
    as [| |un em pw Hu He Hv Hfit Hfree Hname| |m r' t created updated Hm Hr Hok];
    try reflexivity.
  unfold recent. cbn [chats]. rewrite filter_app. cbn [filter].
  assert (Ho : owned_by u (mkChat (ChatHistories_id_seq (db w) + 1) m r' t
                                  created updated (session_userId w)) = false).
  { destruct (owned_by u _) eqn:E; [|reflexivity].
    apply owned_by_spec in E. cbn [c_UserId] in E. contradiction. }
  rewrite Ho, app_nil_r. reflexivity.
Qed.

(** ** Further properties: the forms and the server *)

(** X15. Whatever a login or a registration answers, the form that
    submitted it either goes to [/index.html] (the answer was the 200
    success object) or shows the error text the server sent; the fallback
    texts of the script never appear for an answer of the server. *)
Theorem forms_show_server_reply :
  (forall (email password : value) (w : world),
     let r := fst (login email password w) in
     (r = Json 200 (success_redirect "/index.html")
      /\ on_submit (body_of r) = SetLocation (Some (JStr "/index.html")))
     \/ (exists st m,
           r = Json st (error_body m)
           /\ In m [msg_login_no_user; msg_login_failed]
           /\ on_submit (body_of r) = SetErrorText (JStr m)))
  /\ (forall (e : env) (un em pw : value) (w : world),
        let r := fst (register e un em pw w) in
        (r = Json 200 (success_redirect "/index.html")
         /\ on_submit (body_of r) = SetLocation (Some (JStr "/index.html")))
        \/ (exists st m,
              r = Json st (error_body m)
              /\ In m [msg_register_missing; msg_register_duplicate;
                       msg_register_failed]
              /\ on_submit (body_of r) = SetErrorText (JStr m))).
Proof.
  split.
  - intros email password w r. subst r. destruct w as [d s cl]. run.
    destruct email as [em|]; proj;
      [|right; exists 500, msg_login_failed; repeat split; cbn; auto].
    destruct (user_with_email d em) as [u|]; proj;
      [|right; exists 400, msg_login_no_user; repeat split; cbn; auto].
    destruct password as [pw|]; proj;
      [|right; exists 500, msg_login_failed; repeat split; cbn; auto].
    destruct (bcrypt_compare_hash pw (u_password u)); cbn [negb]; proj.
    + left. split; reflexivity.
    + right. exists 400, msg_login_no_user. repeat split; cbn; auto.
  - intros e un em pw w r. subst r.
    assert (Hmissing : truthy un = false \/ truthy em = false \/ truthy pw = false ->
              exists st m,
                fst (register e un em pw w) = Json st (error_body m)
                /\ In m [msg_register_missing; msg_register_duplicate;
                         msg_register_failed]
                /\ on_submit (body_of (fst (register e un em pw w)))
                   = SetErrorText (JStr m)).
    { intros H. rewrite register_missing by exact H.
      exists 400, msg_register_missing. repeat split; cbn; auto. }
    destruct (truthy un) eqn:Eu; [|right; auto].
    destruct (truthy em) eqn:Ee; [|right; auto].
    destruct (truthy pw) eqn:Ep; [|right; auto].
    clear Hmissing.
    apply truthy_Some in Eu as (a & -> & Ha).
    apply truthy_Some in Ee as (b & -> & Hb).
    apply truthy_Some in Ep as (c & -> & Hc).
    rewrite register_complete by assumption.
    destruct (user_with_email (db w) b);
      [right; exists 400, msg_register_duplicate; repeat split; cbn; auto|].
    destruct (isEmail b); cbn [negb];
      [|right; exists 500, msg_register_failed; repeat split; cbn; auto].
    destruct (existsb _ _);
      [right; exists 500, msg_register_failed; repeat split; cbn; auto|].
    destruct (negb (fits_STRING _ && fits_STRING _ && fits_STRING _));
      [right; exists 500, msg_register_failed; repeat split; cbn; auto|].
    left. split; reflexivity.
Qed.

(** ** Further properties: what requests leave alone *)

(** X16. A chat save that is not answered 200 stores no row and changes
    neither the users nor the session. *)
Theorem chat_save_failure_keeps_tables :
  forall (e : env) (m r : value) (w : world),
    status_of (fst (chat_save e m r w)) <> Some 200 ->
    chats (db (snd (chat_save e m r w))) = chats (db w)
    /\ users (db (snd (chat_save e m r w))) = users (db w)
    /\ session_userId (snd (chat_save e m r w)) = session_userId w
    /\ (status_of (fst (chat_save e m r w)) = Some 400
        \/ status_of (fst (chat_save e m r w)) = Some 500).
Proof.
  intros e m r w.
  destruct (truthy m) eqn:Em;
    [|rewrite chat_save_missing by auto; intros _; repeat split; now left].
  destruct (truthy r) eqn:Er;
    [|rewrite chat_save_missing by auto; intros _; repeat split; now left].
  apply truthy_Some in Em as (a & -> & Ha).
  apply truthy_Some in Er as (b & -> & Hb).
  rewrite chat_save_complete by assumption.
  destruct (session_ok _ _).
  - intros H. contradiction H. reflexivity.
  - intros _. repeat split. now right.
Qed.

(** X17. The history returns all the rows of the user when there are at
    most 50 of them, and exactly 50 otherwise. *)
Theorem history_length :
  forall (d : Store) (u : Z),
    List.length (recent d u)
    = Nat.min 50 (List.length (filter (owned_by u) (chats d))).
Proof.
  intros d u. unfold recent. rewrite length_firstn.
  rewrite (Permutation_length (order_by_timestamp_desc_perm _)). reflexivity.
Qed.

(** X18. The page routes, [/api/me], the history and [/index.html] only
    read: whatever the session and the store, they leave the store, the
    session and the cookies exactly as they were. *)
Theorem reads_change_nothing :
  forall (e : env) (r : request) (w : world),
    In r [GET_root; GET_login; GET_signup; GET_api_me; GET_api_chat_history;
          GET_index_html] ->
    snd (handle e r w) = w.
Proof.
  intros e r w Hin. cbn [In] in Hin.
  destruct Hin as [<-|[<-|[<-|[<-|[<-|[<-|[]]]]]]];
    cbn [handle express_static routes].
  - reflexivity.
  - unfold login_page. destruct (truthy_id _); reflexivity.
  - unfold signup_page. destruct (truthy_id _); reflexivity.
  - rewrite me_eq. destruct (session_userId w);
      [destruct (user_with_id _ _)|]; reflexivity.
  - rewrite chat_history_eq. destruct (session_userId w); reflexivity.
  - reflexivity.
Qed.

End Server.

(** * The handlers at work

    The parameters are instantiated with the stand-ins and the theorems
    applied to concrete requests. *)

Local Abbreviation run_request := (handle sample_isEmail sample_hash sample_compare).

(** Dates as [res.json] writes them. *)
Example toISOString_examples :
  map toISOString
      [0; -1; 951782400000; 1700000000000; 1709251199999; 253402300799999;
       253402300800000; -62167219200000; -62167219200001]
  = ["1970-01-01T00:00:00.000Z"; "1969-12-31T23:59:59.999Z";
     "2000-02-29T00:00:00.000Z"; "2023-11-14T22:13:20.000Z";
     "2024-02-29T23:59:59.999Z"; "9999-12-31T23:59:59.999Z";
     "+010000-01-01T00:00:00.000Z"; "0000-01-01T00:00:00.000Z";
     "-000001-12-31T23:59:59.999Z"].
Proof. reflexivity. Qed.

(** A row of the history, as it is sent. *)
Example history_row_json :
  ChatHistory_toJSON
    (mkChat 1 "hi" "hello" 1700000000000 1700000000001 1700000000001 (Some 1))
  = JObj [("id", JNum 1); ("message", JStr "hi"); ("response", JStr "hello");
          ("timestamp", JStr "2023-11-14T22:13:20.000Z");
          ("createdAt", JStr "2023-11-14T22:13:20.001Z");
          ("updatedAt", JStr "2023-11-14T22:13:20.001Z");
          ("UserId", JNum 1)].
Proof. reflexivity. Qed.

(** A username of 255 characters is stored; one of 256 is refused by the
    column and reported as the generic 500. *)
Example register_long_username :
  fst (run_request sample_env
         (POST_api_register (Some (long_name 255)) (Some "a@example.com")
            (Some "pw123"))
         (arrive empty_store None))
    = Json 200 (success_redirect "/index.html")
  /\ run_request sample_env
       (POST_api_register (Some (long_name 256)) (Some "a@example.com")
          (Some "pw123"))
       (arrive empty_store None)
     = (Json 500 (error_body msg_register_failed),
        mkWorld (mkStore [] [] 1 0) None []).
Proof. split; vm_compute; reflexivity. Qed.

(** Registering alice on the empty store gives [store_with_alice] and a
    session for her. *)
Example register_alice :
  run_request sample_env
    (POST_api_register (Some "alice") (Some "alice@example.com") (Some "pw123"))
    (arrive empty_store None)
  = (Json 200 (success_redirect "/index.html"),
     mkWorld store_with_alice (Some 1) []).
Proof. reflexivity. Qed.

Lemma login_failures_indistinguishable_witness :
  user_with_email store_with_alice "nobody@example.com" = None
  /\ user_with_email store_with_alice "alice@example.com" = Some alice
  /\ sample_compare "wrong" (u_password alice) = false
  /\ fst (login sample_compare (Some "nobody@example.com") (Some "pw123")
             (arrive store_with_alice None))
     = fst (login sample_compare (Some "alice@example.com") (Some "wrong")
              (arrive store_with_alice None)).
Proof.
  split; [reflexivity|]. split; [reflexivity|]. split; [reflexivity|].
  exact (proj1 (login_failures_indistinguishable sample_compare
                  (arrive store_with_alice None) (arrive store_with_alice None)
                  "nobody@example.com" "alice@example.com" "wrong"
                  (Some "pw123") alice eq_refl eq_refl eq_refl)).
Defined.

Lemma register_same_email_twice_witness :
  fst (run_request sample_env
         (POST_api_register (Some "alice") (Some "alice@example.com") (Some "pw123"))
         (arrive empty_store None))
    = Json 200 (success_redirect "/index.html")
  /\ fst (run_request sample_env
            (POST_api_register (Some "bob") (Some "alice@example.com") (Some "pw456"))
            (arrive (serve sample_isEmail sample_hash sample_compare
                       store_with_alice
                       [mkArrival sample_env (Some 1)
                          (POST_api_chat_save (Some "hi") (Some "hello"))])
                    None))
     = Json 400 (error_body msg_register_duplicate).
Proof.
  split; [reflexivity|].
  destruct (register_same_email_twice sample_isEmail sample_hash sample_compare
              sample_env sample_env empty_store None None
              (Some "alice") (Some "alice@example.com") (Some "pw123")
              (Some "bob") (Some "pw456")
              [mkArrival sample_env (Some 1)
                 (POST_api_chat_save (Some "hi") (Some "hello"))]
              eq_refl) as (u & _ & _ & _ & H & _).
  exact H.
Defined.

(** The claim of C3 as it stands, refuted: the second registration has the
    same e-mail but no username, and is told that fields are missing. *)
Lemma register_same_email_twice_counterexample :
  fst (run_request sample_env
         (POST_api_register (Some "alice") (Some "alice@example.com") (Some "pw123"))
         (arrive empty_store None))
    = Json 200 (success_redirect "/index.html")
  /\ fst (run_request sample_env
            (POST_api_register None (Some "alice@example.com") (Some "pw456"))
            (arrive store_with_alice None))
     = Json 400 (error_body msg_register_missing)
  /\ fst (run_request sample_env
            (POST_api_register None (Some "alice@example.com") (Some "pw456"))
            (arrive store_with_alice None))
     <> Json 400 (error_body msg_register_duplicate).
Proof.
  split; [reflexivity|]. split; [reflexivity|].
  vm_compute. discriminate.
Qed.

Lemma register_taken_username_witness :
  (exists x, In x (users store_with_alice) /\ u_username x = "alice")
  /\ fst (run_request sample_env
            (POST_api_register (Some "alice") (Some "other@example.com") (Some "pw456"))
            (arrive store_with_alice None))
     = Json 500 (error_body msg_register_failed).
Proof.
  assert (Hfree : forall x, In x (users store_with_alice) ->
                            u_email x <> "other@example.com").
  { intros x [<-|[]]. discriminate. }
  assert (Htaken : exists x, In x (users store_with_alice) /\ u_username x = "alice").
  { exists alice. split; [left|]; reflexivity. }
  split; [exact Htaken|].
  destruct (register_taken_username sample_isEmail sample_hash sample_env
              store_with_alice None "alice" "other@example.com" "pw456"
              ltac:(discriminate) ltac:(discriminate) ltac:(discriminate)
              Hfree Htaken) as (_ & _ & H & _).
  exact H.
Defined.

(** The claim of C10 as it stands, refuted: the e-mail is new and the
    username taken, but the password is missing, and the reply is the 400
    for missing fields, not a 500. *)
Lemma register_taken_username_counterexample :
  user_with_email store_with_alice "other@example.com" = None
  /\ (exists x, In x (users store_with_alice) /\ u_username x = "alice")
  /\ fst (run_request sample_env
            (POST_api_register (Some "alice") (Some "other@example.com") None)
            (arrive store_with_alice None))
     = Json 400 (error_body msg_register_missing)
  /\ status_of (fst (run_request sample_env
                       (POST_api_register (Some "alice") (Some "other@example.com") None)
                       (arrive store_with_alice None)))
     <> Some 500.
Proof.
  split; [reflexivity|]. split.
  { exists alice. split; [left|]; reflexivity. }
  split; [reflexivity|]. vm_compute. discriminate.
Qed.

Lemma register_invalid_input_witness :
  sample_isEmail "bob" = false
  /\ run_request sample_env
       (POST_api_register (Some "bob") (Some "bob") (Some "pw123"))
       (arrive empty_store None)
     = (Json 500 (error_body msg_register_failed), arrive empty_store None).
Proof.
  split; [reflexivity|].
  destruct (register_invalid_input sample_isEmail sample_hash sample_env
              empty_store None (Some "bob") (Some "bob") (Some "pw123")
              (or_intror (or_intror (or_intror
                 (ex_intro _ "bob" (conj eq_refl eq_refl)))))) as [Hw Hr].
  cbn [handle express_static routes]. rewrite (surjective_pairing (register _ _ _ _ _ _ _)).
  rewrite Hw, Hr. reflexivity.
Defined.

(** The claim of C6 as it stands, refuted: all three fields are there, the
    e-mail has no [@], and the reply is a 500, not a 400. *)
Lemma register_invalid_input_counterexample :
  sample_isEmail "bob" = false
  /\ status_of (fst (run_request sample_env
                       (POST_api_register (Some "bob") (Some "bob") (Some "pw123"))
                       (arrive empty_store None)))
     = Some 500
  /\ status_of (fst (run_request sample_env
                       (POST_api_register (Some "bob") (Some "bob") (Some "pw123"))
                       (arrive empty_store None)))
     <> Some 400.
Proof.
  split; [reflexivity|]. split; [reflexivity|]. vm_compute. discriminate.
Qed.



(** The scenario of the specification, request by request. *)
Example end_to_end :
  let registered :=
    run_request sample_env
      (POST_api_register (Some "alice") (Some "alice@example.com") (Some "pw123"))
      (arrive empty_store None) in
  let logged_in :=
    run_request sample_env
      (POST_api_login (Some "alice@example.com") (Some "pw123"))
      (arrive (db (snd registered)) None) in
  let saved :=
    run_request sample_env (POST_api_chat_save (Some "hi") (Some "hello"))
      (arrive (db (snd logged_in)) (session_userId (snd logged_in))) in
  let history :=
    run_request sample_env GET_api_chat_history
      (arrive (db (snd saved)) (session_userId (snd logged_in))) in
  let logged_out :=
    run_request sample_env GET_api_logout
      (arrive (db (snd saved)) (session_userId (snd logged_in))) in
  let who :=
    run_request sample_env GET_api_me (arrive (db (snd saved)) None) in
  fst registered = Json 200 (success_redirect "/index.html")
  /\ session_userId (snd registered) = Some 1
  /\ fst logged_in = Json 200 (success_redirect "/index.html")
  /\ session_userId (snd logged_in) = Some 1
  /\ fst history
     = Json 200 (JArr [ChatHistory_toJSON
                         (mkChat 1 "hi" "hello" 1700000000000 1700000000001
                                 1700000000001 (Some 1))])
  /\ snd logged_out = mkWorld (db (snd saved)) None ["connect.sid"]
  /\ fst who = Json 404 (error_body msg_me_not_found).
Proof. vm_compute. repeat split; reflexivity. Qed.

Lemma chat_history_own_records_witness :
  chat_history (mkWorld store_with_chats (Some 1) [])
    = (Json 200 (JArr [ChatHistory_toJSON
                         (mkChat 3 "again" "hello again" 20 20 20 (Some 1));
                       ChatHistory_toJSON
                         (mkChat 1 "hi" "hello" 10 10 10 (Some 1))]),
       mkWorld store_with_chats (Some 1) [])
  /\ ~ In (saved_chat sample_env (arrive store_with_chats (Some 2)) "hey" "you")
          (recent store_with_chats 1).
Proof.
  destruct (chat_history_own_records store_with_chats 1 [])
    as (Hreply & _ & _ & _ & _ & Hother).
  split; [exact Hreply|].
  apply Hother. discriminate.
Defined.

Lemma me_public_profile_witness :
  fst (me (mkWorld store_with_chats (Some 2) []))
    = Json 200 (JObj [("username", JStr "bob"); ("email", JStr "bob@example.com")])
  /\ fst (me (mkWorld store_with_chats (Some 9) []))
     = Json 404 (error_body msg_me_not_found).
Proof.
  destruct (me_public_profile store_with_chats 2 []) as (_ & (_ & _ & Hbob) & _).
  destruct (me_public_profile store_with_chats 9 []) as (_ & (_ & Hnone) & _).
  split; [exact Hbob | exact Hnone].
Defined.

(** ** Further properties, on concrete requests *)

Lemma login_accepts_iff_witness :
  (exists em pw u,
     Some "alice@example.com" = Some em /\ Some "pw123" = Some pw
     /\ user_with_email store_with_alice em = Some u
     /\ sample_compare pw (u_password u) = true)
  /\ snd (login sample_compare (Some "alice@example.com") (Some "pw123")
            (arrive store_with_alice None))
     = mkWorld store_with_alice (Some 1) [].
Proof.
  destruct (login_accepts_iff sample_compare (Some "alice@example.com")
              (Some "pw123") (arrive store_with_alice None)) as [Hiff Hworld].
  split; [exact (proj1 Hiff eq_refl)|].
  exact (Hworld "alice@example.com" "pw123" alice eq_refl eq_refl eq_refl eq_refl).
Defined.


Lemma register_failure_keeps_tables_witness :
  fst (register sample_isEmail sample_hash sample_env
         (Some "carol") (Some "alice@example.com") (Some "pw789")
         (arrive store_with_alice None))
    <> Json 200 (success_redirect "/index.html")
  /\ users (db (snd (register sample_isEmail sample_hash sample_env
                       (Some "carol") (Some "alice@example.com") (Some "pw789")
                       (arrive store_with_alice None))))
     = [alice].
Proof.
  assert (H : fst (register sample_isEmail sample_hash sample_env
                     (Some "carol") (Some "alice@example.com") (Some "pw789")
                     (arrive store_with_alice None))
              <> Json 200 (success_redirect "/index.html")).
  { vm_compute. discriminate. }
  split; [exact H|].
  exact (proj1 (register_failure_keeps_tables sample_isEmail sample_hash
                  sample_env (Some "carol") (Some "alice@example.com")
                  (Some "pw789") (arrive store_with_alice None) H)).
Defined.

Lemma stored_user_is_found_witness :
  In alice (users (serve sample_isEmail sample_hash sample_compare empty_store
                     [mkArrival sample_env None
                        (POST_api_register (Some "alice")
                           (Some "alice@example.com") (Some "pw123"))]))
  /\ user_with_id (serve sample_isEmail sample_hash sample_compare empty_store
                     [mkArrival sample_env None
                        (POST_api_register (Some "alice")
                           (Some "alice@example.com") (Some "pw123"))])
                  (u_id alice)
     = Some alice.
Proof.
  assert (H : In alice
                (users (serve sample_isEmail sample_hash sample_compare empty_store
                          [mkArrival sample_env None
                             (POST_api_register (Some "alice")
                                (Some "alice@example.com") (Some "pw123"))]))).
  { left. reflexivity. }
  split; [exact H|].
  exact (proj2 (stored_user_is_found sample_isEmail sample_hash sample_compare
                  [mkArrival sample_env None
                     (POST_api_register (Some "alice")
                        (Some "alice@example.com") (Some "pw123"))]
                  alice H)).
Defined.

Lemma sessions_keep_rows_owned_witness :
  all_owned (serve sample_isEmail sample_hash sample_compare empty_store
               [mkArrival sample_env None
                  (POST_api_register (Some "alice")
                     (Some "alice@example.com") (Some "pw123"));
                mkArrival sample_env (Some 1)
                  (POST_api_chat_save (Some "hi") (Some "hello"));
                mkArrival sample_env None GET_api_chat_history])
  = true.
Proof.
  apply (sessions_keep_rows_owned sample_isEmail sample_hash sample_compare).
  reflexivity.
Defined.

Lemma pages_after_sign_in_witness :
  run_request sample_env GET_login
    (snd (run_request sample_env
            (POST_api_login (Some "alice@example.com") (Some "pw123"))
            (arrive (serve sample_isEmail sample_hash sample_compare empty_store
                       [mkArrival sample_env None
                          (POST_api_register (Some "alice")
                             (Some "alice@example.com") (Some "pw123"))])
                    None)))
  = (Redirect "/index.html",
     snd (run_request sample_env
            (POST_api_login (Some "alice@example.com") (Some "pw123"))
            (arrive (serve sample_isEmail sample_hash sample_compare empty_store
                       [mkArrival sample_env None
                          (POST_api_register (Some "alice")
                             (Some "alice@example.com") (Some "pw123"))])
                    None))).
Proof.
  exact (proj1 (pages_after_sign_in sample_isEmail sample_hash sample_compare
                  [mkArrival sample_env None
                     (POST_api_register (Some "alice")
                        (Some "alice@example.com") (Some "pw123"))]
                  sample_env sample_env
                  (POST_api_login (Some "alice@example.com") (Some "pw123"))
                  None eq_refl)).
Defined.


Lemma login_after_register_witness :
  fst (login sample_compare (Some "alice@example.com") (Some "pw123")
         (arrive (serve sample_isEmail sample_hash sample_compare
                    (db (snd (register sample_isEmail sample_hash sample_env
                                (Some "alice") (Some "alice@example.com")
                                (Some "pw123") (arrive empty_store None))))
                    [mkArrival sample_env None GET_api_logout])
                 None))
  = Json 200 (success_redirect "/index.html").
Proof.
  rewrite (login_after_register sample_isEmail sample_hash sample_compare
             sample_env empty_store None None "alice" "alice@example.com"
             "pw123" "pw123" [mkArrival sample_env None GET_api_logout] eq_refl).
  reflexivity.
Defined.

Lemma chat_save_then_history_witness :
  recent (db (snd (chat_save sample_env (Some "more") (Some "hello once more")
                     (mkWorld store_with_chats (Some 1) []))))
         1
  = [mkChat 4 "more" "hello once more" 1700000000000 1700000000001
            1700000000001 (Some 1);
     mkChat 3 "again" "hello again" 20 20 20 (Some 1);
     mkChat 1 "hi" "hello" 10 10 10 (Some 1)].
Proof.
  assert (Hclock : forall c, In c (chats store_with_chats) ->
                             c_UserId c = Some 1 -> c_timestamp c < now sample_env).
  { intros c [<-|[<-|[<-|[]]]] _; reflexivity. }
  exact (proj1 (chat_save_then_history sample_env store_with_chats 1
                  "more" "hello once more" []
                  ltac:(discriminate) ltac:(discriminate) eq_refl Hclock)).
Defined.

Lemma history_isolated_witness :
  recent (db (snd (run_request sample_env
                     (POST_api_chat_save (Some "psst") (Some "hello bob"))
                     (arrive store_with_chats (Some 2)))))
         1
  = recent store_with_chats 1.
Proof.
  apply (history_isolated sample_isEmail sample_hash sample_compare sample_env
           (POST_api_chat_save (Some "psst") (Some "hello bob"))
           (arrive store_with_chats (Some 2)) 1).
  discriminate.
Defined.

Lemma chat_save_failure_keeps_tables_witness :
  status_of (fst (chat_save sample_env (Some "hi") (Some "")
                    (arrive store_with_chats (Some 1))))
    <> Some 200
  /\ chats (db (snd (chat_save sample_env (Some "hi") (Some "")
                        (arrive store_with_chats (Some 1)))))
     = chats store_with_chats.
Proof.
  assert (H : status_of (fst (chat_save sample_env (Some "hi") (Some "")
                                (arrive store_with_chats (Some 1))))
              <> Some 200).
  { vm_compute. discriminate. }
  split; [exact H|].
  exact (proj1 (chat_save_failure_keeps_tables sample_env (Some "hi") (Some "")
                  (arrive store_with_chats (Some 1)) H)).
Defined.

Lemma reads_change_nothing_witness :
  In GET_api_me [GET_root; GET_login; GET_signup; GET_api_me;
                 GET_api_chat_history; GET_index_html]
  /\ snd (run_request sample_env GET_api_me (arrive store_with_chats (Some 2)))
     = arrive store_with_chats (Some 2).
Proof.
  assert (H : In GET_api_me [GET_root; GET_login; GET_signup; GET_api_me;
                             GET_api_chat_history; GET_index_html]).
  { right; right; right; left; reflexivity. }
  split; [exact H|].
  exact (reads_change_nothing sample_isEmail sample_hash sample_compare
           sample_env GET_api_me (arrive store_with_chats (Some 2)) H).
Defined.
